(** * Remote MCP server: tool handlers and bounded crawler

    A shallow embedding of the five tool handlers registered by
    [MyMCP.init] (fetchAudioAndSave, summarizeText, scrapeUrlAndSublinks,
    uploadAudioToR2, getFromCloudflareKV) and the properties of their
    failure handling, crawl loop and payload classification.

    The handlers are asynchronous JavaScript functions that talk to the
    network.  They are embedded in a state-and-exception monad over an
    abstract runtime: the runtime supplies what the libraries and the
    network answer (axios, cheerio, uuid, URL, JSON, Buffer and the
    process configuration) and the handlers are transcribed statement by
    statement on top of it.

    The repository holds several revisions of the module; the embedding
    follows the one that registers all five tools.  The crawler is the same
    in every revision.  Calls to [console.log] and [console.error] have no
    bearing on what a handler returns and are left out. *)

From Stdlib Require Import String Ascii List ZArith Lia Bool.
From Stdlib Require Import DecimalString DecimalZ.
From Stdlib.Strings Require Import Byte.
Import ListNotations.
Local Open Scope list_scope.
Local Open Scope string_scope.
Set Warnings "-register-all".

(** ** JavaScript values *)

(** The values that travel through the handlers: response bodies parsed by
    axios, request payloads, and the raw values the handlers copy into their
    results.  Numbers are the integers that JavaScript prints digit by digit
    (of magnitude below 10^21); property lists hold each key once. *)
Inductive JsValue : Type :=
| JUndefined
| JNull
| JBool (b : bool)
| JNum (n : Z)
| JStr (s : string)
| JArr (items : list JsValue)
| JObj (props : list (string * JsValue)).

(** ToBoolean, as used by [if (v)], [!v] and [a || b]. *)
Definition truthy (v : JsValue) : bool :=
  match v with
  | JUndefined | JNull => false
  | JBool b => b
  | JNum n => negb (n =? 0)%Z
  | JStr s => negb (s =? "")
  | JArr _ | JObj _ => true
  end.

(** [a || b]. *)
Definition js_or (a b : JsValue) : JsValue :=
  if truthy a then a else b.

(** An optional string argument ([z.string().optional()]): [None] is
    [undefined]. *)
Definition of_optional (o : option string) : JsValue :=
  match o with
  | Some s => JStr s
  | None => JUndefined
  end.

(** A destructuring default [{ x = d }]: only [undefined] takes the default. *)
Definition with_default (o : option string) (d : string) : string :=
  match o with
  | Some s => s
  | None => d
  end.

Fixpoint assoc {V : Type} (k : string) (l : list (string * V)) : option V :=
  match l with
  | [] => None
  | (k', v) :: rest => if k' =? k then Some v else assoc k rest
  end.

(** [v?.k] for the own data properties read by the handlers ([result],
    [audio], [summary], [errors], [message]): primitives and arrays have no
    such property, [null] and [undefined] short-circuit. *)
Definition get_prop (v : JsValue) (k : string) : JsValue :=
  match v with
  | JObj props =>
      match assoc k props with
      | Some x => x
      | None => JUndefined
      end
  | _ => JUndefined
  end.

(** [v?.[0]]. *)
Definition get_index0 (v : JsValue) : JsValue :=
  match v with
  | JArr (x :: _) => x
  | JStr (String c _) => JStr (String c "")
  | JObj props =>
      match assoc "0" props with
      | Some x => x
      | None => JUndefined
      end
  | _ => JUndefined
  end.

(** Number to string, for the integers that are printed in full. *)
Definition string_of_Z (n : Z) : string :=
  NilZero.string_of_int (Z.to_int n).

(** ToString, as applied by a template literal [`${v}`]. *)
Fixpoint js_String (v : JsValue) : string :=
  match v with
  | JUndefined => "undefined"
  | JNull => "null"
  | JBool true => "true"
  | JBool false => "false"
  | JNum n => string_of_Z n
  | JStr s => s
  | JArr items =>
      (fix join (l : list JsValue) : string :=
         match l with
         | [] => ""
         | x :: rest =>
             let elt :=
               match x with
               | JUndefined | JNull => ""
               | _ => js_String x
               end in
             match rest with
             | [] => elt
             | _ :: _ => elt ++ "," ++ join rest
             end
         end) items
  | JObj _ => "[object Object]"
  end.

(** [s.startsWith(p)]. *)
Definition startsWith (s p : string) : bool := String.prefix p s.

(** [s.includes(p)]. *)
Fixpoint includes (s p : string) : bool :=
  String.prefix p s ||
  match s with
  | EmptyString => false
  | String _ s' => includes s' p
  end.

(** ** The string-keyed object [sublinkTexts]

    A JavaScript object keeps its string keys in insertion order and an
    assignment to an existing key replaces the value in place.  The keys
    stored here are serialised URLs, which contain a colon and so are neither
    index-like nor the name of an inherited accessor. *)
Definition Dict : Type := list (string * string).

Fixpoint obj_set (o : Dict) (k v : string) : Dict :=
  match o with
  | [] => [(k, v)]
  | (k', v') :: rest =>
      if k' =? k then (k', v) :: rest else (k', v') :: obj_set rest k v
  end.

Definition obj_get (o : Dict) (k : string) : option string := assoc k o.

Definition obj_keys (o : Dict) : list string := map fst o.

Definition dict_to_js (o : Dict) : JsValue :=
  JObj (map (fun kv => (fst kv, JStr (snd kv))) o).

(** ** Responses, errors and requests *)

Record AxiosResponse : Type := mkResponse {
  status : Z;
  statusText : string;
  data : JsValue
}.

(** A thrown value: an [Error] has a message; an axios error for a
    response outside the accepted status range also carries that response. *)
Record JsError : Type := mkError {
  message : string;
  response : option AxiosResponse
}.

(** [new Error(msg)]. *)
Definition Error (msg : string) : JsError :=
  {| message := msg; response := None |}.

(** How the promise of an axios call settles. *)
Inductive AxiosOutcome : Type :=
| Resolved (r : AxiosResponse)
| Rejected (e : JsError).

Inductive Method : Type := GET | POST | PUT.

Inductive Body : Type :=
| NoBody
| JsonBody (payload : JsValue)
| BufferBody (bytes : list byte).

Record Request : Type := mkRequest {
  req_method : Method;
  req_url : string;
  req_body : Body;
  req_headers : list (string * string)
}.

(** What [cheerio.load(html)] exposes to the crawler: [$("body").text()] and
    the [href] values of [$("a[href]")] in document order. *)
Record Page : Type := mkPage {
  body_text : string;
  anchor_hrefs : list string
}.

(** ** Tool results *)

Record ResourceDesc : Type := mkResource {
  res_uri : string;
  res_blob : option JsValue;
  res_text : option JsValue;
  res_mimeType : option string
}.

Inductive ContentItem : Type :=
| Text (text : JsValue)
| Resource (resource : ResourceDesc).

Record ToolResult : Type := mkResult {
  content : list ContentItem
}.

(** The object passed to [JSON.stringify] by the crawler. *)
Record CrawlResult : Type := mkCrawl {
  main_url : string;
  main_text : string;
  sublinks : Dict
}.

Definition crawl_to_js (c : CrawlResult) : JsValue :=
  JObj [("main_url", JStr (main_url c));
        ("main_text", JStr (main_text c));
        ("sublinks", dict_to_js (sublinks c))].

(** ** The runtime

    Everything the handlers obtain from outside their own text.  The world
    is threaded through every network call and every [uuid.v4()], so two
    requests for one URL may be answered differently. *)
Class Runtime : Type := {
  World : Type;
  (** the settled promise of [axios.get], [axios.post] and [axios.put] *)
  axios : Request -> World -> AxiosOutcome * World;
  uuid_v4 : World -> string * World;
  (** [cheerio.load(data)], or what it throws *)
  cheerio_load : JsValue -> JsError + Page;
  (** [new URL(href, base).toString()], or the [TypeError] it throws *)
  new_URL : string -> string -> JsError + string;
  (** [String.prototype.trim] *)
  trim : string -> string;
  (** [JSON.stringify(v)]: a string, or [undefined] *)
  JSON_stringify : JsValue -> JsValue;
  (** [encodeURIComponent(s)], or the [URIError] it throws *)
  encodeURIComponent : string -> JsError + string;
  (** [Buffer.from(s, 'base64')] *)
  Buffer_from_base64 : string -> list byte;
  (** the module constants, read from [process.env] at load time *)
  CLOUDFLARE_API_KEY : string;
  CLOUDFLARE_EMAIL : string;
  CLOUDFLARE_ACCOUNT_ID : string;
  CLOUDFLARE_NAMESPACE_ID : string
}.

Definition R2_URL : string :=
  "https://pub-3bf40eb073024dc2846e1518b851c583.r2.dev".

Definition LF : string := String (ascii_of_nat 10) EmptyString.

(** ** The handlers *)

Section Handlers.

Context {RT : Runtime}.

(** The state of a run: the world, and the requests issued so far (a ghost
    log, in the order of the [await]s). *)
Record State : Type := mkState {
  world : World;
  requests : list Request
}.

(** A computation either returns or throws, and leaves a state. *)
Definition M (A : Type) : Type := State -> (JsError + A) * State.

Definition ret {A : Type} (a : A) : M A :=
  fun s => (inr a, s).

Definition throw {A : Type} (e : JsError) : M A :=
  fun s => (inl e, s).

Definition bind {A B : Type} (c : M A) (k : A -> M B) : M B :=
  fun s =>
    match c s with
    | (inr a, s') => k a s'
    | (inl e, s') => (inl e, s')
    end.

(** [try { c } catch (error) { h error }]. *)
Definition try_catch {A : Type} (c : M A) (h : JsError -> M A) : M A :=
  fun s =>
    match c s with
    | (inr a, s') => (inr a, s')
    | (inl e, s') => h e s'
    end.

(** A call into a library that returns or throws without touching the
    world. *)
Definition lift {A : Type} (r : JsError + A) : M A :=
  fun s => (r, s).

Notation "x <- c ;; k" := (bind c (fun x => k))
  (at level 61, c at next level, right associativity).

(** [await axios(req)]: a rejected promise is thrown at the [await]. *)
Definition await_axios (req : Request) : M AxiosResponse :=
  fun s =>
    let (o, w) := axios req (world s) in
    (match o with
     | Resolved r => inr r
     | Rejected e => inl e
     end,
     {| world := w; requests := (requests s ++ [req])%list |}).

(** The requests behind [axios.get(url, { headers })],
    [axios.post(url, payload, { headers })] and
    [axios.put(url, buffer, { headers })]. *)
Definition get_request (url : string) (headers : list (string * string))
  : Request :=
  mkRequest GET url NoBody headers.

Definition post_request (url : string) (payload : JsValue)
    (headers : list (string * string)) : Request :=
  mkRequest POST url (JsonBody payload) headers.

Definition put_request (url : string) (buffer : list byte)
    (headers : list (string * string)) : Request :=
  mkRequest PUT url (BufferBody buffer) headers.

Definition call_uuid_v4 : M string :=
  fun s =>
    let (id, w) := uuid_v4 (world s) in
    (inr id, {| world := w; requests := requests s |}).

(** [error.response?.data?.errors?.[0]?.message]. *)
Definition provider_message (error : JsError) : JsValue :=
  match response error with
  | Some r => get_prop (get_index0 (get_prop (data r) "errors")) "message"
  | None => JUndefined
  end.

(** [error.response?.data?.errors?.[0]?.message || error.message]. *)
Definition bestEffortMessage (error : JsError) : JsValue :=
  js_or (provider_message error) (JStr (message error)).

Definition text_result (s : string) : ToolResult :=
  {| content := [Text (JStr s)] |}.

(** *** fetchAudioAndSave *)

(** The request of [axios.post(apiUrl, payload, { headers })]. *)
Definition melotts_request (text lang : string) : Request :=
  let key := CLOUDFLARE_API_KEY in
  let apiUrl :=
    "https://api.cloudflare.com/client/v4/accounts/"
    ++ CLOUDFLARE_ACCOUNT_ID ++ "/ai/run/@cf/myshell-ai/melotts" in
  let payload := JObj [("prompt", JStr text); ("lang", JStr lang)] in
  let headers :=
    [("Content-Type", "application/json");
     ("X-Auth-Email", CLOUDFLARE_EMAIL);
     ("X-Auth-Key", key)] in
  post_request apiUrl payload headers.

Definition fetchAudioAndSave (text lang : option string) : M ToolResult :=
  let text := with_default text "" in
  let lang := with_default lang "en" in
  try_catch
    (response <- await_axios (melotts_request text lang) ;;
     if (status response =? 200)%Z then
       let audioBase64 := get_prop (get_prop (data response) "result") "audio" in
       if truthy audioBase64 then
         audioId <- call_uuid_v4 ;;
         ret {| content :=
                  [Text (JStr ("Generated audio ID: " ++ audioId));
                   Resource
                     {| res_uri := "data:audio/mp3;base64," ++ js_String audioBase64;
                        res_blob := Some audioBase64;
                        res_text := None;
                        res_mimeType := Some "audio/mp3" |}] |}
       else throw (Error "Audio data not found in the response.")
     else
       throw (Error ("Request failed: " ++ string_of_Z (status response)
                     ++ " - " ++ statusText response)))
    (fun error =>
       ret (text_result ("Error: " ++ js_String (bestEffortMessage error)))).

(** *** summarizeText *)

(** The request of [axios.post(apiUrl, payload, { headers })]. *)
Definition bart_request (text : string) : Request :=
  let apiUrl :=
    "https://api.cloudflare.com/client/v4/accounts/"
    ++ CLOUDFLARE_ACCOUNT_ID ++ "/ai/run/@cf/facebook/bart-large-cnn" in
  let payload := JObj [("input_text", JStr text); ("max_tokens", JNum 100)] in
  let headers :=
    [("Content-Type", "application/json");
     ("X-Auth-Email", CLOUDFLARE_EMAIL);
     ("X-Auth-Key", CLOUDFLARE_API_KEY)] in
  post_request apiUrl payload headers.

Definition summarizeText (text : string) : M ToolResult :=
  try_catch
    (response <- await_axios (bart_request text) ;;
     if (status response =? 200)%Z then
       let summary := get_prop (get_prop (data response) "result") "summary" in
       if truthy summary then
         ret {| content := [Text summary] |}
       else throw (Error "Summary data not found in the response.")
     else
       throw (Error ("Request failed: " ++ string_of_Z (status response)
                     ++ " - " ++ statusText response)))
    (fun error =>
       ret (text_result ("Error: " ++ js_String (bestEffortMessage error)))).

(** *** scrapeUrlAndSublinks *)

(** The [for (const sublink of sublinks)] loop.  The URL is resolved before
    the inner [try]; the fetch and the parse are inside it. *)
Fixpoint crawl_sublinks (url : string) (sublinks : list string)
    (sublinkTexts : Dict) : M Dict :=
  match sublinks with
  | [] => ret sublinkTexts
  | sublink :: rest =>
      sublinkUrl <- lift (new_URL sublink url) ;;
      sublinkTexts' <-
        try_catch
          (subResponse <- await_axios (get_request sublinkUrl []) ;;
           subPage <- lift (cheerio_load (data subResponse)) ;;
           ret (obj_set sublinkTexts sublinkUrl (trim (body_text subPage))))
          (fun error =>
             ret (obj_set sublinkTexts sublinkUrl
                    ("Error fetching sublink: " ++ message error))) ;;
      crawl_sublinks url rest sublinkTexts'
  end.

(** The outer [try] block up to the object handed to [JSON.stringify]. *)
Definition crawl (url : string) : M CrawlResult :=
  response <- await_axios (get_request url []) ;;
  page <- lift (cheerio_load (data response)) ;;
  let mainText := trim (body_text page) in
  let sublinks := firstn 5 (anchor_hrefs page) in
  sublinkTexts <- crawl_sublinks url sublinks [] ;;
  ret {| main_url := url; main_text := mainText; sublinks := sublinkTexts |}.

Definition crawl_resource (url : string) (c : CrawlResult) : ToolResult :=
  {| content :=
       [Resource
          {| res_uri := url;
             res_blob := None;
             res_text := Some (JSON_stringify (crawl_to_js c));
             res_mimeType := None |}] |}.

Definition scrapeUrlAndSublinks (url : string) : M ToolResult :=
  try_catch
    (c <- crawl url ;;
     ret (crawl_resource url c))
    (fun error => ret (text_result ("Error: " ++ message error))).

(** *** uploadAudioToR2 *)

(** [finalContentType]: the declared type when there is one, else detected
    from the base64 header. *)
Definition finalContentType (contentType : option string) (fileData : string)
  : string :=
  if negb (truthy (of_optional contentType)) then
    if startsWith fileData "UklGR" then "audio/wav" else "audio/mp3"
  else js_String (of_optional contentType).

(** [extension]. *)
Definition extension (finalContentType : string) : string :=
  if includes finalContentType "wav" then "wav" else "mp3".

(** [fileName || `audio-${uuid.v4()}.${extension}`]: the identifier is
    drawn only when no usable name was given. *)
Definition finalFileName (fileName : option string) (extension : string)
  : M string :=
  if truthy (of_optional fileName) then ret (js_String (of_optional fileName))
  else
    id <- call_uuid_v4 ;;
    ret ("audio-" ++ id ++ "." ++ extension).

(** The request of [axios.put(uploadUrl, fileBuffer, { headers })]. *)
Definition r2_request (fileData finalContentType finalFileName : string)
  : Request :=
  let fileBuffer := Buffer_from_base64 fileData in
  let bucketName := "uploads" in
  let uploadUrl :=
    "https://api.cloudflare.com/client/v4/accounts/"
    ++ CLOUDFLARE_ACCOUNT_ID ++ "/r2/buckets/" ++ bucketName
    ++ "/objects/" ++ finalFileName in
  let headers :=
    [("Content-Type", finalContentType);
     ("X-Auth-Email", CLOUDFLARE_EMAIL);
     ("X-Auth-Key", CLOUDFLARE_API_KEY);
     ("Content-Length", string_of_Z (Z.of_nat (length fileBuffer)))] in
  put_request uploadUrl fileBuffer headers.

Definition uploadAudioToR2 (fileData : string)
    (fileName contentType : option string) : M ToolResult :=
  try_catch
    (let finalContentType := finalContentType contentType fileData in
     let extension := extension finalContentType in
     finalFileName <- finalFileName fileName extension ;;
     response <-
       await_axios (r2_request fileData finalContentType finalFileName) ;;
     if ((status response =? 200) || (status response =? 201))%Z then
       let fileUrl := R2_URL ++ "/" ++ finalFileName in
       ret {| content :=
                [Text (JStr ("File successfully uploaded to R2 storage." ++ LF
                             ++ "File: " ++ finalFileName ++ LF
                             ++ "URL: " ++ fileUrl ++ LF
                             ++ "Type: " ++ finalContentType));
                 Resource
                   {| res_uri := fileUrl;
                      res_blob := Some (JStr fileData);
                      res_text := None;
                      res_mimeType := Some finalContentType |}] |}
     else
       throw (Error ("Upload failed: " ++ string_of_Z (status response)
                     ++ " - " ++ statusText response)))
    (fun error =>
       ret (text_result ("Error uploading to R2: "
                         ++ js_String (bestEffortMessage error)))).

(** *** getFromCloudflareKV *)

Definition kv_not_found (key : string) : ToolResult :=
  text_result ("Key '" ++ key ++ "' not found in Cloudflare KV namespace.").

(** [error.response?.status === 404]. *)
Definition response_status_is (error : JsError) (code : Z) : bool :=
  match response error with
  | Some r => (status r =? code)%Z
  | None => false
  end.

(** [namespaceId || CLOUDFLARE_NAMESPACE_ID]. *)
Definition finalNamespaceId (namespaceId : option string) : string :=
  js_String (js_or (of_optional namespaceId) (JStr CLOUDFLARE_NAMESPACE_ID)).

(** The request of [axios.get(kvUrl, { headers })]. *)
Definition kv_request (finalNamespaceId encodedKey : string) : Request :=
  let kvUrl :=
    "https://api.cloudflare.com/client/v4/accounts/"
    ++ CLOUDFLARE_ACCOUNT_ID ++ "/storage/kv/namespaces/"
    ++ finalNamespaceId ++ "/values/" ++ encodedKey in
  let headers :=
    [("X-Auth-Email", CLOUDFLARE_EMAIL);
     ("X-Auth-Key", CLOUDFLARE_API_KEY)] in
  get_request kvUrl headers.

Definition getFromCloudflareKV (key : string) (namespaceId : option string)
  : M ToolResult :=
  try_catch
    (let finalNamespaceId := finalNamespaceId namespaceId in
     encodedKey <- lift (encodeURIComponent key) ;;
     response <- await_axios (kv_request finalNamespaceId encodedKey) ;;
     if (status response =? 200)%Z then
       let value := data response in
       let valueText :=
         match value with
         | JStr _ => value
         | _ => JSON_stringify value
         end in
       ret {| content :=
                [Text (JStr ("Successfully retrieved value from Cloudflare KV."
                             ++ LF ++ "Key: " ++ key ++ LF
                             ++ "Value: " ++ js_String valueText));
                 Resource
                   {| res_uri := "kv://" ++ finalNamespaceId ++ "/" ++ key;
                      res_blob := None;
                      res_text := Some valueText;
                      res_mimeType := Some "text/plain" |}] |}
     else if (status response =? 404)%Z then
       ret (kv_not_found key)
     else
       throw (Error ("Request failed: " ++ string_of_Z (status response)
                     ++ " - " ++ statusText response)))
    (fun error =>
       if response_status_is error 404 then ret (kv_not_found key)
       else
         ret (text_result ("Error retrieving from Cloudflare KV: "
                           ++ js_String (bestEffortMessage error)))).

(** *** The registered tools

    A call that has passed its schema: the arguments as the handler
    receives them. *)
Inductive ToolCall : Type :=
| Call_fetchAudioAndSave (text lang : option string)
| Call_summarizeText (text : string)
| Call_scrapeUrlAndSublinks (url : string)
| Call_uploadAudioToR2 (fileData : string) (fileName contentType : option string)
| Call_getFromCloudflareKV (key : string) (namespaceId : option string).

Definition run_handler (call : ToolCall) : M ToolResult :=
  match call with
  | Call_fetchAudioAndSave text lang => fetchAudioAndSave text lang
  | Call_summarizeText text => summarizeText text
  | Call_scrapeUrlAndSublinks url => scrapeUrlAndSublinks url
  | Call_uploadAudioToR2 fileData fileName contentType =>
      uploadAudioToR2 fileData fileName contentType
  | Call_getFromCloudflareKV key namespaceId =>
      getFromCloudflareKV key namespaceId
  end.

End Handlers.

(** ** A concrete runtime

    A small site and a configurable upstream, on which the handlers can be
    run: [https://example.test/] serves a few pages, every request to
    [https://api.cloudflare.com/] settles as the parameter [api] says, and
    any other host is unreachable.  The library functions are given on the
    inputs that occur in these pages only. *)
Module Toy.

Definition anchor (href label : string) : string :=
  "<a href='" ++ href ++ "'>" ++ label ++ "</a>".

Definition document (text : string) (anchors : list string) : string :=
  "<html><body>" ++ text ++ String.concat "" anchors ++ "</body></html>".

Definition hrefs_seven : list string :=
  ["/p1"; "/p2"; "/p3"; "/p4"; "/p5"; "/p6"; "/p7"].

Definition hrefs_same : list string :=
  ["/p1"; "/p1"; "/p1"; "/p1"; "/p1"; "/p1"; "/p1"].

Definition hrefs_few : list string := ["/p1"; "/p2"; "/p3"].

Definition hrefs_bad : list string := ["/p1"; "http://"; "/p3"].

(** An index page: the word "Index" and one anchor per link.  The anchors
    have no text of their own, so the text of the body is "Index". *)
Definition html_of (hrefs : list string) : string :=
  document "Index" (map (fun h => anchor h "") hrefs).

Definition html_leaf (text : string) : string := document text [].

(** The pages of the site, by URL. *)
Definition pages : list (string * string) :=
  [("https://example.test/", html_of hrefs_seven);
   ("https://example.test/same", html_of hrefs_same);
   ("https://example.test/few", html_of hrefs_few);
   ("https://example.test/bad", html_of hrefs_bad);
   ("https://example.test/p1", html_leaf "Page one");
   ("https://example.test/p3", html_leaf "Page three");
   ("https://example.test/p5", html_leaf "Page five")].

Definition ok (body : JsValue) : AxiosResponse :=
  {| status := 200; statusText := "OK"; data := body |}.

Definition http_error (code : Z) (reason : string) (body : JsValue) : JsError :=
  {| message := "Request failed with status code " ++ string_of_Z code;
     response := Some {| status := code; statusText := reason; data := body |} |}.

Definition network_error : JsError :=
  Error "getaddrinfo ENOTFOUND".

(** An error body in the provider's format. *)
Definition cloudflare_errors (msg : string) : JsValue :=
  JObj [("success", JBool false);
        ("errors", JArr [JObj [("code", JNum 10009); ("message", JStr msg)]])].

(** [/p2] answers 500, [/private] answers 403 with an error body, the other
    missing pages 404. *)
Definition site (url : string) : AxiosOutcome :=
  match assoc url pages with
  | Some html => Resolved (ok (JStr html))
  | None =>
      if startsWith url "https://example.test/" then
        if url =? "https://example.test/p2"
        then Rejected (http_error 500 "Internal Server Error" (JStr "oops"))
        else if url =? "https://example.test/private"
        then Rejected (http_error 403 "Forbidden"
                         (cloudflare_errors "Authentication error"))
        else Rejected (http_error 404 "Not Found" (JStr "missing"))
      else Rejected network_error
  end.

Definition toy_axios (api : AxiosOutcome) (req : Request) (w : nat)
  : AxiosOutcome * nat :=
  (if startsWith (req_url req) "https://api.cloudflare.com/" then api
   else site (req_url req),
   S w).

(** The parsed view of the documents above. *)
Definition parsed : list (string * Page) :=
  [(html_of hrefs_seven, mkPage "Index" hrefs_seven);
   (html_of hrefs_same, mkPage "Index" hrefs_same);
   (html_of hrefs_few, mkPage "Index" hrefs_few);
   (html_of hrefs_bad, mkPage "Index" hrefs_bad);
   (html_leaf "Page one", mkPage "Page one" []);
   (html_leaf "Page three", mkPage "Page three" []);
   (html_leaf "Page five", mkPage "Page five" [])].

Definition toy_cheerio_load (v : JsValue) : JsError + Page :=
  match v with
  | JStr html =>
      match assoc html parsed with
      | Some p => inr p
      | None => inr (mkPage "" [])
      end
  | _ => inr (mkPage "" [])
  end.

(** Resolution against a page of [https://example.test/]: a path is put
    behind the origin, and [http://], which has no host, is rejected. *)
Definition toy_new_URL (href base : string) : JsError + string :=
  if startsWith href "/" then inr ("https://example.test" ++ href)
  else if href =? "http://" then inl (Error "Invalid URL")
  else inr href.

Definition DQ : string := String (ascii_of_nat 34) EmptyString.

(** [JSON.stringify] for values whose strings need no escape. *)
Fixpoint toy_stringify (v : JsValue) : string :=
  match v with
  | JUndefined | JNull => "null"
  | JBool true => "true"
  | JBool false => "false"
  | JNum n => string_of_Z n
  | JStr s => DQ ++ s ++ DQ
  | JArr items =>
      "[" ++ (fix elts (l : list JsValue) : string :=
                match l with
                | [] => ""
                | x :: rest =>
                    match rest with
                    | [] => toy_stringify x
                    | _ :: _ => toy_stringify x ++ "," ++ elts rest
                    end
                end) items ++ "]"
  | JObj props =>
      "{" ++ (fix flds (l : list (string * JsValue)) : string :=
                match l with
                | [] => ""
                | (k, x) :: rest =>
                    match rest with
                    | [] => DQ ++ k ++ DQ ++ ":" ++ toy_stringify x
                    | _ :: _ =>
                        DQ ++ k ++ DQ ++ ":" ++ toy_stringify x ++ "," ++ flds rest
                    end
                end) props ++ "}"
  end.

Definition toy_buffer (s : string) : list byte :=
  if s =? "UklGRg==" then [x52; x49; x46; x46] else [].

#[local] Instance runtime (api : AxiosOutcome) : Runtime := {|
  World := nat;
  axios := toy_axios api;
  uuid_v4 := fun w => ("1b4e28ba-2fa1-4d3b-a3f5-ef19b5a7633b", S w);
  cheerio_load := toy_cheerio_load;
  new_URL := toy_new_URL;
  trim := fun s => s;
  JSON_stringify := fun v => JStr (toy_stringify v);
  encodeURIComponent := fun s => inr s;
  Buffer_from_base64 := toy_buffer;
  CLOUDFLARE_API_KEY := "key";
  CLOUDFLARE_EMAIL := "ops@example.test";
  CLOUDFLARE_ACCOUNT_ID := "account";
  CLOUDFLARE_NAMESPACE_ID := "your-namespace-id"
|}.

(** Upstream answers used in the examples. *)
Definition kv_missing : AxiosOutcome :=
  Rejected (http_error 404 "Not Found" (cloudflare_errors "key not found")).

Definition upstream_down : AxiosOutcome :=
  Rejected (http_error 500 "Internal Server Error" (JStr "")).

Definition forbidden : AxiosOutcome :=
  Rejected (http_error 403 "Forbidden" (cloudflare_errors "Authentication error")).

Definition created : AxiosOutcome :=
  Resolved {| status := 201; statusText := "Created"; data := JObj [] |}.

Definition spoken (audio : string) : AxiosOutcome :=
  Resolved (ok (JObj [("result", JObj [("audio", JStr audio)]);
                      ("success", JBool true)])).

Definition empty_result : AxiosOutcome :=
  Resolved (ok (JObj [("result", JObj []); ("success", JBool true)])).

Definition start (api : AxiosOutcome) : @State (runtime api) :=
  @mkState (runtime api) 0 [].

(** The result of a handler on the site, from a fresh state. *)
Definition run {A : Type} (api : AxiosOutcome) (c : @M (runtime api) A)
  : JsError + A :=
  fst (c (start api)).

(** The URLs requested by a handler, in order. *)
Definition asked {A : Type} (api : AxiosOutcome) (c : @M (runtime api) A)
  : list string :=
  map req_url (requests (snd (c (start api)))).

End Toy.

(** ** Vocabulary for the statements

    Nothing below is part of the handlers: these definitions name what the
    statements talk about (the status behind a settled call, the answers of
    the world to a sequence of fetches, the blobs of a result). *)

(** The HTTP status behind a settled call, when there is a response. *)
Definition outcome_status (o : AxiosOutcome) : option Z :=
  match o with
  | Resolved r => Some (status r)
  | Rejected e => option_map status (response e)
  end.

(** The blobs of the [Resource] items of a result. *)
Fixpoint blobs (items : list ContentItem) : list (option JsValue) :=
  match items with
  | [] => []
  | Text _ :: rest => blobs rest
  | Resource r :: rest => res_blob r :: blobs rest
  end.

(** The content items a run hands back (none if it threw). *)
Definition returned {S : Type} (x : (JsError + ToolResult) * S)
  : list ContentItem :=
  match fst x with
  | inr r => content r
  | inl _ => []
  end.

Section Trace.

Context {RT : Runtime}.

(** The state after one more request. *)
Definition asked_in (s : State) (req : Request) (w : World) : State :=
  {| world := w; requests := (requests s ++ [req])%list |}.

(** What the inner [try] of the crawl loop makes of a settled fetch: the
    trimmed body text, or the error caught. *)
Definition fetched_text (o : AxiosOutcome) : JsError + string :=
  match o with
  | Resolved r =>
      match cheerio_load (data r) with
      | inr p => inr (trim (body_text p))
      | inl e => inl e
      end
  | Rejected e => inl e
  end.

(** The value stored for a link. *)
Definition entry_of (o : AxiosOutcome) : string :=
  match fetched_text o with
  | inr t => t
  | inl e => "Error fetching sublink: " ++ message e
  end.

(** How the world answers a sequence of fetches, one after the other. *)
Fixpoint answers (urls : list string) (w : World) : list AxiosOutcome :=
  match urls with
  | [] => []
  | u :: rest =>
      let (o, w') := axios (get_request u []) w in
      o :: answers rest w'
  end.

Fixpoint world_after (urls : list string) (w : World) : World :=
  match urls with
  | [] => w
  | u :: rest => world_after rest (snd (axios (get_request u []) w))
  end.

(** The name [finalFileName] settles on, and the state it leaves: an
    identifier is drawn from the world only when no name was given. *)
Definition chosen_name (fileName : option string) (ext : string) (s : State)
  : string :=
  if truthy (of_optional fileName) then js_String (of_optional fileName)
  else "audio-" ++ fst (uuid_v4 (world s)) ++ "." ++ ext.

Definition state_named (fileName : option string) (s : State) : State :=
  if truthy (of_optional fileName) then s
  else {| world := snd (uuid_v4 (world s)); requests := requests s |}.

(** Assignments [o[k] = v] carried out in order. *)
Definition set_all (o : Dict) (kvs : list (string * string)) : Dict :=
  fold_left (fun d kv => obj_set d (fst kv) (snd kv)) kvs o.

End Trace.

(** ** Earlier revisions

    The revision with four tools has no key-value lookup and an upload that
    takes the declared type as it is, with "audio/mp3" as its default.  The
    revision with three tools returns the speech under the keys
    [media_type], [data] and [name].  Their other handlers read as above. *)

Module FourTools.

Section Handlers.

Context {RT : Runtime}.

Notation "x <- c ;; k" := (bind c (fun x => k))
  (at level 61, c at next level, right associativity).

Definition uploadAudioToR2 (audioData : string)
    (fileName contentType : option string) : M ToolResult :=
  let contentType := with_default contentType "audio/mp3" in
  try_catch
    (finalFileName <- finalFileName fileName "mp3" ;;
     response <-
       await_axios (r2_request audioData contentType finalFileName) ;;
     if ((status response =? 200) || (status response =? 201))%Z then
       let fileUrl := R2_URL ++ "/" ++ finalFileName in
       ret {| content :=
                [Text (JStr ("Audio file successfully uploaded to R2 storage."
                             ++ LF ++ "File: " ++ finalFileName ++ LF
                             ++ "URL: " ++ fileUrl));
                 Resource
                   {| res_uri := fileUrl;
                      res_blob := Some (JStr audioData);
                      res_text := None;
                      res_mimeType := Some contentType |}] |}
     else
       throw (Error ("Upload failed: " ++ string_of_Z (status response)
                     ++ " - " ++ statusText response)))
    (fun error =>
       ret (text_result ("Error uploading to R2: "
                         ++ js_String (bestEffortMessage error)))).

End Handlers.

End FourTools.

Module ThreeTools.

(** The items of a result in this revision. *)
Inductive EarlyItem : Type :=
| EarlyText (text : JsValue)
| EarlyResource (media_type : string) (data : JsValue) (name : string).

Record EarlyResult : Type := mkEarly {
  early_content : list EarlyItem
}.

Section Handlers.

Context {RT : Runtime}.

Notation "x <- c ;; k" := (bind c (fun x => k))
  (at level 61, c at next level, right associativity).

Definition fetchAudioAndSave (text lang : option string) : M EarlyResult :=
  let text := with_default text "" in
  let lang := with_default lang "en" in
  try_catch
    (response <- await_axios (melotts_request text lang) ;;
     if (status response =? 200)%Z then
       let audioBase64 := get_prop (get_prop (data response) "result") "audio" in
       if truthy audioBase64 then
         audioId <- call_uuid_v4 ;;
         ret {| early_content :=
                  [EarlyText (JStr ("Generated audio ID: " ++ audioId));
                   EarlyResource "audio/mp3" audioBase64 (audioId ++ ".mp3")] |}
       else throw (Error "Audio data not found in the response.")
     else
       throw (Error ("Request failed: " ++ string_of_Z (status response)
                     ++ " - " ++ statusText response)))
    (fun error =>
       ret {| early_content :=
                [EarlyText (JStr ("Error: "
                                  ++ js_String (bestEffortMessage error)))] |}).

End Handlers.

End ThreeTools.

(** ** A runtime that refuses a key

    The concrete runtime above, except that [encodeURIComponent] throws on a
    string that holds an unpaired surrogate (written here as its three
    bytes). *)
Module Strict.

Definition lone_surrogate : string :=
  String (ascii_of_nat 237)
    (String (ascii_of_nat 160) (String (ascii_of_nat 128) EmptyString)).

Definition strict_encode (s : string) : JsError + string :=
  if includes s lone_surrogate then inl (Error "URI malformed") else inr s.

#[local] Instance runtime (api : AxiosOutcome) : Runtime := {|
  World := nat;
  axios := Toy.toy_axios api;
  uuid_v4 := fun w => ("1b4e28ba-2fa1-4d3b-a3f5-ef19b5a7633b", S w);
  cheerio_load := Toy.toy_cheerio_load;
  new_URL := Toy.toy_new_URL;
  trim := fun s => s;
  JSON_stringify := fun v => JStr (Toy.toy_stringify v);
  encodeURIComponent := strict_encode;
  Buffer_from_base64 := Toy.toy_buffer;
  CLOUDFLARE_API_KEY := "key";
  CLOUDFLARE_EMAIL := "ops@example.test";
  CLOUDFLARE_ACCOUNT_ID := "account";
  CLOUDFLARE_NAMESPACE_ID := "your-namespace-id"
|}.

Definition start (api : AxiosOutcome) : @State (runtime api) :=
  @mkState (runtime api) 0 [].

End Strict.

(** ** A site that recovers

    The site above with two more index pages and a page that is busy when
    first asked: [/twice] links to [/p9] two times, and [/p9] answers 503 to
    the request made right after the root's and serves its page from then on;
    [/broken] links to [/p2], which answers 500, then to [http://], which does
    not resolve, then to [/p3]. *)
Module Flaky.

Definition hrefs_twice : list string := ["/p9"; "/p9"].

Definition hrefs_broken : list string := ["/p2"; "http://"; "/p3"].

Definition busy : JsError :=
  Toy.http_error 503 "Service Unavailable" (JStr "busy").

Definition flaky_axios (req : Request) (w : nat) : AxiosOutcome * nat :=
  (if req_url req =? "https://example.test/twice" then
     Resolved (Toy.ok (JStr (Toy.html_of hrefs_twice)))
   else if req_url req =? "https://example.test/broken" then
     Resolved (Toy.ok (JStr (Toy.html_of hrefs_broken)))
   else if req_url req =? "https://example.test/p9" then
     if (w =? 1)%nat then Rejected busy
     else Resolved (Toy.ok (JStr (Toy.html_leaf "Page nine")))
   else Toy.site (req_url req),
   S w).

Definition flaky_cheerio_load (v : JsValue) : JsError + Page :=
  match v with
  | JStr html =>
      if html =? Toy.html_of hrefs_twice then inr (mkPage "Index" hrefs_twice)
      else if html =? Toy.html_of hrefs_broken then inr (mkPage "Index" hrefs_broken)
      else if html =? Toy.html_leaf "Page nine" then inr (mkPage "Page nine" [])
      else Toy.toy_cheerio_load v
  | _ => Toy.toy_cheerio_load v
  end.

#[local] Instance runtime : Runtime := {|
  World := nat;
  axios := flaky_axios;
  uuid_v4 := fun w => ("1b4e28ba-2fa1-4d3b-a3f5-ef19b5a7633b", S w);
  cheerio_load := flaky_cheerio_load;
  new_URL := Toy.toy_new_URL;
  trim := fun s => s;
  JSON_stringify := fun v => JStr (Toy.toy_stringify v);
  encodeURIComponent := fun s => inr s;
  Buffer_from_base64 := Toy.toy_buffer;
  CLOUDFLARE_API_KEY := "key";
  CLOUDFLARE_EMAIL := "ops@example.test";
  CLOUDFLARE_ACCOUNT_ID := "account";
  CLOUDFLARE_NAMESPACE_ID := "your-namespace-id"
|}.

Definition start : @State runtime := @mkState runtime 0 [].

Definition run {A : Type} (c : @M runtime A) : JsError + A :=
  fst (c start).

Definition asked {A : Type} (c : @M runtime A) : list string :=
  map req_url (requests (snd (c start))).

End Flaky.

(** ** More vocabulary *)

(** An error that carries an HTTP status: in its message, as the errors
    thrown by the handlers do, or in the response attached to it, as the
    errors of axios do. *)
Definition carries_status (e : JsError) (code : Z) : Prop :=
  includes (message e) (string_of_Z code) = true
  \/ option_map status (response e) = Some code.

(** The keys of a sequence of assignments, each at its first occurrence. *)
Fixpoint first_occurrences (l : list string) : list string :=
  match l with
  | [] => []
  | k :: rest => k :: remove string_dec k (first_occurrences rest)
  end.

(** Whether a key is not among those seen so far. *)
Definition unseen (seen : list string) (k : string) : bool :=
  if in_dec string_dec k seen then false else true.

(** The resources of a result, in order. *)
Fixpoint resources (items : list ContentItem) : list ResourceDesc :=
  match items with
  | [] => []
  | Text _ :: rest => resources rest
  | Resource r :: rest => r :: resources rest
  end.

(** A request as the crawler makes them: a GET with no body and no header. *)
Definition bare_get (r : Request) : Prop :=
  req_method r = GET /\ req_body r = NoBody /\ req_headers r = [].

(** The text payloads of the items of a result, in order. *)
Fixpoint texts (items : list ContentItem) : list JsValue :=
  match items with
  | [] => []
  | Text t :: rest => t :: texts rest
  | Resource _ :: rest => texts rest
  end.

Fixpoint early_texts (items : list ThreeTools.EarlyItem) : list JsValue :=
  match items with
  | [] => []
  | ThreeTools.EarlyText t :: rest => t :: early_texts rest
  | ThreeTools.EarlyResource _ _ _ :: rest => early_texts rest
  end.

(** The payloads of the resources of a result of the revision with three
    tools, as optional values like [blobs]. *)
Fixpoint early_data (items : list ThreeTools.EarlyItem) : list (option JsValue) :=
  match items with
  | [] => []
  | ThreeTools.EarlyText _ :: rest => early_data rest
  | ThreeTools.EarlyResource _ d _ :: rest => Some d :: early_data rest
  end.

Section Credentials.

Context {RT : Runtime}.

(** A request addressed to the provider's API that carries the account's
    e-mail and key. *)
Definition authenticated (r : Request) : Prop :=
  String.prefix "https://api.cloudflare.com/client/v4/accounts/" (req_url r)
  = true
  /\ assoc "X-Auth-Email" (req_headers r) = Some CLOUDFLARE_EMAIL
  /\ assoc "X-Auth-Key" (req_headers r) = Some CLOUDFLARE_API_KEY.

End Credentials.

(** * Properties *)

(** ** Strings *)

Lemma prefix_empty (s : string) : String.prefix "" s = true.
Proof. destruct s; reflexivity. Qed.

Lemma prefix_app (p s : string) : String.prefix p (p ++ s) = true.
Proof.
  induction p as [|c p IH]; simpl; [apply prefix_empty|].
  destruct (ascii_dec c c) as [_|Hc]; [exact IH | contradiction].
Qed.

Lemma includes_prefix (s p : string) :
  String.prefix p s = true -> includes s p = true.
Proof.
  intros H. destruct s; simpl in *; rewrite H; reflexivity.
Qed.

Lemma includes_app (a p b : string) : includes (a ++ p ++ b) p = true.
Proof.
  induction a as [|c a IH]; simpl.
  - apply includes_prefix, prefix_app.
  - rewrite IH. apply orb_true_r.
Qed.

Lemma append_assoc (a b c : string) : (a ++ b) ++ c = a ++ (b ++ c).
Proof.
  induction a as [|x a IH]; simpl; [reflexivity | now rewrite IH].
Qed.

(** ** The monad *)

Section Laws.

Context {RT : Runtime}.

Lemma await_resolved (req : Request) (s : State) (r : AxiosResponse) (w : World) :
  axios req (world s) = (Resolved r, w) ->
  await_axios req s = (inr r, asked_in s req w).
Proof. intros H. unfold await_axios. rewrite H. reflexivity. Qed.

Lemma await_rejected (req : Request) (s : State) (e : JsError) (w : World) :
  axios req (world s) = (Rejected e, w) ->
  await_axios req s = (inl e, asked_in s req w).
Proof. intros H. unfold await_axios. rewrite H. reflexivity. Qed.

(** A handler whose [catch] clause returns never throws. *)
Lemma try_catch_total {A : Type} (c : M A) (h : JsError -> A) (s : State) :
  exists a s', try_catch c (fun e => ret (h e)) s = (inr a, s').
Proof.
  unfold try_catch, ret. destruct (c s) as [[e|a] s']; eauto.
Qed.

End Laws.

(** ** getFromCloudflareKV *)

Section KeyValue.

Context {RT : Runtime}.

Variables (key : string) (namespaceId : option string) (s : State).
Variables (encodedKey : string) (w : World).

Hypothesis encoded : encodeURIComponent key = inr encodedKey.

Local Abbreviation req := (kv_request (finalNamespaceId namespaceId) encodedKey).

(** The handler on a response that axios let through. *)
Lemma kv_resolved (r : AxiosResponse) :
  axios req (world s) = (Resolved r, w) ->
  getFromCloudflareKV key namespaceId s =
    (inr (if (status r =? 200)%Z then
            let valueText :=
              match data r with
              | JStr _ => data r
              | _ => JSON_stringify (data r)
              end in
            {| content :=
                 [Text (JStr ("Successfully retrieved value from Cloudflare KV."
                              ++ LF ++ "Key: " ++ key ++ LF
                              ++ "Value: " ++ js_String valueText));
                  Resource
                    {| res_uri := "kv://" ++ finalNamespaceId namespaceId
                                  ++ "/" ++ key;
                       res_blob := None;
                       res_text := Some valueText;
                       res_mimeType := Some "text/plain" |}] |}
          else if (status r =? 404)%Z then kv_not_found key
          else text_result
                 ("Error retrieving from Cloudflare KV: Request failed: "
                  ++ string_of_Z (status r) ++ " - " ++ statusText r)),
     asked_in s req w).
Proof.
  intros Hax. unfold getFromCloudflareKV, try_catch, bind, lift.
  rewrite encoded. rewrite (await_resolved _ _ _ _ Hax).
  destruct (status r =? 200)%Z; [reflexivity|].
  destruct (status r =? 404)%Z; reflexivity.
Qed.

(** The handler on a rejected call. *)
Lemma kv_rejected (e : JsError) :
  axios req (world s) = (Rejected e, w) ->
  getFromCloudflareKV key namespaceId s =
    (inr (if response_status_is e 404 then kv_not_found key
          else text_result ("Error retrieving from Cloudflare KV: "
                            ++ js_String (bestEffortMessage e))),
     asked_in s req w).
Proof.
  intros Hax. unfold getFromCloudflareKV, try_catch, bind, lift.
  rewrite encoded. rewrite (await_rejected _ _ _ _ Hax).
  destruct (response_status_is e 404); reflexivity.
Qed.

Lemma response_status_is_spec (e : JsError) (code : Z) :
  response_status_is e code = true <-> outcome_status (Rejected e) = Some code.
Proof.
  unfold response_status_is, outcome_status.
  destruct (response e) as [r|]; simpl.
  - rewrite Z.eqb_eq. split; [intros ->; reflexivity | intros [= ->]; reflexivity].
  - split; discriminate.
Qed.

Lemma kv_error_is_not_not_found (m : string) :
  "Error retrieving from Cloudflare KV: " ++ m
  <> "Key '" ++ key ++ "' not found in Cloudflare KV namespace.".
Proof. simpl. discriminate. Qed.

(** C4. When the key-value read is answered with status 404, whether axios
    resolves with that response or rejects with it, the result is the single
    text "Key '<key>' not found in Cloudflare KV namespace.", which contains
    "not found"; on any other status except 200 the result is a single text
    that contains "Error" and differs from the not-found text. *)
Theorem kv_404_is_not_found (o : AxiosOutcome) :
  axios req (world s) = (o, w) ->
  (outcome_status o = Some 404%Z ->
   getFromCloudflareKV key namespaceId s =
     (inr {| content :=
               [Text (JStr ("Key '" ++ key
                            ++ "' not found in Cloudflare KV namespace."))] |},
      asked_in s req w)
   /\ includes ("Key '" ++ key ++ "' not found in Cloudflare KV namespace.")
               "not found" = true)
  /\
  (forall code : Z,
     outcome_status o = Some code -> code <> 200%Z -> code <> 404%Z ->
     exists t : string,
       getFromCloudflareKV key namespaceId s =
         (inr {| content := [Text (JStr t)] |}, asked_in s req w)
       /\ includes t "Error" = true
       /\ t <> "Key '" ++ key ++ "' not found in Cloudflare KV namespace.").
Proof.
  intros Hax. split.
  - intros H404. split.
    + destruct o as [r|e].
      * rewrite (kv_resolved r Hax). simpl in H404. injection H404 as ->.
        reflexivity.
      * rewrite (kv_rejected e Hax).
        apply response_status_is_spec in H404. rewrite H404. reflexivity.
    + replace ("Key '" ++ key ++ "' not found in Cloudflare KV namespace.")
        with (("Key '" ++ key ++ "' ") ++ "not found"
                ++ " in Cloudflare KV namespace.").
      * apply includes_app.
      * rewrite !append_assoc. reflexivity.
  - intros code Hcode H200 H404. destruct o as [r|e].
    + rewrite (kv_resolved r Hax). simpl in Hcode. injection Hcode as ->.
      apply Z.eqb_neq in H200, H404. rewrite H200, H404.
      eexists. split; [reflexivity|]. split.
      * apply includes_prefix. reflexivity.
      * simpl. discriminate.
    + rewrite (kv_rejected e Hax).
      destruct (response_status_is e 404) eqn:Hs.
      * apply response_status_is_spec in Hs. rewrite Hs in Hcode.
        injection Hcode as <-. contradiction.
      * eexists. split; [reflexivity|]. split.
        -- apply includes_prefix. reflexivity.
        -- apply kv_error_is_not_not_found.
Qed.

End KeyValue.

Lemma kv_404_is_not_found_witness :
  Toy.run Toy.kv_missing (getFromCloudflareKV "missing-key" None)
  = inr {| content :=
             [Text (JStr "Key 'missing-key' not found in Cloudflare KV namespace.")] |}
  /\ exists t : string,
       Toy.run Toy.upstream_down (getFromCloudflareKV "missing-key" None)
       = inr {| content := [Text (JStr t)] |}
       /\ includes t "Error" = true
       /\ t <> "Key 'missing-key' not found in Cloudflare KV namespace.".
Proof.
  split.
  - destruct (kv_404_is_not_found (RT := Toy.runtime Toy.kv_missing)
                "missing-key" None (Toy.start Toy.kv_missing) "missing-key" 1%nat
                eq_refl Toy.kv_missing eq_refl) as [H _].
    destruct (H eq_refl) as [Hrun _].
    unfold Toy.run. rewrite Hrun. reflexivity.
  - destruct (kv_404_is_not_found (RT := Toy.runtime Toy.upstream_down)
                "missing-key" None (Toy.start Toy.upstream_down) "missing-key" 1%nat
                eq_refl Toy.upstream_down eq_refl) as [_ H].
    destruct (H 500%Z eq_refl ltac:(discriminate) ltac:(discriminate))
      as [t [Hrun [Herr Hne]]].
    exists t. unfold Toy.run. rewrite Hrun. auto.
Defined.

(** ** fetchAudioAndSave and summarizeText *)

Section Inference.

Context {RT : Runtime}.

(** Without a response the message of the failure is all there is. *)
Lemma best_effort_no_response (e : JsError) :
  response e = None -> js_String (bestEffortMessage e) = message e.
Proof.
  intros H. unfold bestEffortMessage, provider_message. rewrite H. reflexivity.
Qed.

(** A truthy provider message wins over the message of the failure. *)
Lemma best_effort_provider (e : JsError) :
  truthy (provider_message e) = true ->
  bestEffortMessage e = provider_message e.
Proof. intros H. unfold bestEffortMessage, js_or. now rewrite H. Qed.

Lemma best_effort_fallback (e : JsError) :
  truthy (provider_message e) = false ->
  bestEffortMessage e = JStr (message e).
Proof. intros H. unfold bestEffortMessage, js_or. now rewrite H. Qed.

Lemma fetchAudio_resolved (text lang : option string) (s : State)
    (r : AxiosResponse) (w : World) :
  let req := melotts_request (with_default text "") (with_default lang "en") in
  axios req (world s) = (Resolved r, w) ->
  fetchAudioAndSave text lang s =
    if (status r =? 200)%Z then
      let audioBase64 := get_prop (get_prop (data r) "result") "audio" in
      if truthy audioBase64 then
        (inr {| content :=
                  [Text (JStr ("Generated audio ID: " ++ fst (uuid_v4 w)));
                   Resource
                     {| res_uri := "data:audio/mp3;base64," ++ js_String audioBase64;
                        res_blob := Some audioBase64;
                        res_text := None;
                        res_mimeType := Some "audio/mp3" |}] |},
         {| world := snd (uuid_v4 w); requests := (requests s ++ [req])%list |})
      else
        (inr (text_result "Error: Audio data not found in the response."),
         asked_in s req w)
    else
      (inr (text_result ("Error: Request failed: " ++ string_of_Z (status r)
                         ++ " - " ++ statusText r)),
       asked_in s req w).
Proof.
  intros req Hax. subst req. unfold fetchAudioAndSave, try_catch, bind.
  rewrite (await_resolved _ _ _ _ Hax).
  destruct (status r =? 200)%Z; [|reflexivity].
  cbv zeta.
  destruct (truthy (get_prop (get_prop (data r) "result") "audio"));
    [|reflexivity].
  unfold call_uuid_v4, asked_in. cbn [world requests].
  destruct (uuid_v4 w) as [id w']. reflexivity.
Qed.

Lemma fetchAudio_rejected (text lang : option string) (s : State)
    (e : JsError) (w : World) :
  let req := melotts_request (with_default text "") (with_default lang "en") in
  axios req (world s) = (Rejected e, w) ->
  fetchAudioAndSave text lang s =
    (inr (text_result ("Error: " ++ js_String (bestEffortMessage e))),
     asked_in s req w).
Proof.
  intros req Hax. subst req. unfold fetchAudioAndSave, try_catch, bind.
  rewrite (await_rejected _ _ _ _ Hax). reflexivity.
Qed.

Lemma summarize_resolved (text : string) (s : State)
    (r : AxiosResponse) (w : World) :
  axios (bart_request text) (world s) = (Resolved r, w) ->
  summarizeText text s =
    (inr (if (status r =? 200)%Z then
            let summary := get_prop (get_prop (data r) "result") "summary" in
            if truthy summary then {| content := [Text summary] |}
            else text_result "Error: Summary data not found in the response."
          else text_result ("Error: Request failed: " ++ string_of_Z (status r)
                            ++ " - " ++ statusText r)),
     asked_in s (bart_request text) w).
Proof.
  intros Hax. unfold summarizeText, try_catch, bind.
  rewrite (await_resolved _ _ _ _ Hax).
  destruct (status r =? 200)%Z; [|reflexivity].
  cbv zeta.
  destruct (truthy (get_prop (get_prop (data r) "result") "summary"));
    reflexivity.
Qed.

Lemma summarize_rejected (text : string) (s : State) (e : JsError) (w : World) :
  axios (bart_request text) (world s) = (Rejected e, w) ->
  summarizeText text s =
    (inr (text_result ("Error: " ++ js_String (bestEffortMessage e))),
     asked_in s (bart_request text) w).
Proof.
  intros Hax. unfold summarizeText, try_catch, bind.
  rewrite (await_rejected _ _ _ _ Hax). reflexivity.
Qed.

End Inference.

(** C10. A response with status 200 whose body has no usable
    [result.audio] (respectively [result.summary]: absent, or any other falsy
    value) is not a success: fetchAudioAndSave returns the single text
    "Error: Audio data not found in the response." and summarizeText the
    single text "Error: Summary data not found in the response."; both
    contain "Error" and the message. *)
Theorem ok_without_payload_is_error {RT : Runtime} :
  (forall (text lang : option string) (s : State) (r : AxiosResponse) (w : World),
     let req := melotts_request (with_default text "") (with_default lang "en") in
     axios req (world s) = (Resolved r, w) ->
     status r = 200%Z ->
     truthy (get_prop (get_prop (data r) "result") "audio") = false ->
     fetchAudioAndSave text lang s =
       (inr {| content :=
                 [Text (JStr "Error: Audio data not found in the response.")] |},
        asked_in s req w))
  /\
  (forall (text : string) (s : State) (r : AxiosResponse) (w : World),
     axios (bart_request text) (world s) = (Resolved r, w) ->
     status r = 200%Z ->
     truthy (get_prop (get_prop (data r) "result") "summary") = false ->
     summarizeText text s =
       (inr {| content :=
                 [Text (JStr "Error: Summary data not found in the response.")] |},
        asked_in s (bart_request text) w))
  /\ includes "Error: Audio data not found in the response." "Error" = true
  /\ includes "Error: Audio data not found in the response."
              "Audio data not found in the response." = true
  /\ includes "Error: Summary data not found in the response." "Error" = true
  /\ includes "Error: Summary data not found in the response."
              "Summary data not found in the response." = true.
Proof.
  split; [|split; [|repeat split; reflexivity]].
  - intros text lang s r w req Hax H200 Hfalsy.
    rewrite (fetchAudio_resolved text lang s r w Hax).
    rewrite H200. cbv zeta. rewrite Hfalsy. reflexivity.
  - intros text s r w Hax H200 Hfalsy.
    rewrite (summarize_resolved text s r w Hax).
    rewrite H200. cbv zeta. rewrite Hfalsy. reflexivity.
Qed.

Lemma ok_without_payload_is_error_witness :
  Toy.run Toy.empty_result (fetchAudioAndSave (Some "hello") None)
  = inr {| content :=
             [Text (JStr "Error: Audio data not found in the response.")] |}
  /\ Toy.run Toy.empty_result (summarizeText "a long text")
     = inr {| content :=
                [Text (JStr "Error: Summary data not found in the response.")] |}.
Proof.
  destruct (ok_without_payload_is_error (RT := Toy.runtime Toy.empty_result))
    as [Haudio [Hsummary _]].
  split.
  - unfold Toy.run.
    rewrite (Haudio (Some "hello") None (Toy.start Toy.empty_result)
               (Toy.ok (JObj [("result", JObj []); ("success", JBool true)]))
               1%nat eq_refl eq_refl eq_refl).
    reflexivity.
  - unfold Toy.run.
    rewrite (Hsummary "a long text" (Toy.start Toy.empty_result)
               (Toy.ok (JObj [("result", JObj []); ("success", JBool true)]))
               1%nat eq_refl eq_refl eq_refl).
    reflexivity.
Defined.

(** ** uploadAudioToR2 *)

Section Upload.

Context {RT : Runtime}.

Lemma finalFileName_run (fileName : option string) (ext : string) (s : State) :
  finalFileName fileName ext s
  = (inr (chosen_name fileName ext s), state_named fileName s).
Proof.
  unfold finalFileName, chosen_name, state_named.
  destruct (truthy (of_optional fileName)); [reflexivity|].
  unfold bind, call_uuid_v4. destruct (uuid_v4 (world s)); reflexivity.
Qed.

Variables (fileData : string) (fileName contentType : option string).
Variable s : State.

Local Abbreviation ct := (finalContentType contentType fileData).
Local Abbreviation name := (chosen_name fileName (extension ct) s).
Local Abbreviation s1 := (state_named fileName s).
Local Abbreviation req := (r2_request fileData ct name).

Lemma upload_resolved (r : AxiosResponse) (w : World) :
  axios req (world s1) = (Resolved r, w) ->
  uploadAudioToR2 fileData fileName contentType s =
    (inr (if ((status r =? 200) || (status r =? 201))%Z then
            {| content :=
                 [Text (JStr ("File successfully uploaded to R2 storage." ++ LF
                              ++ "File: " ++ name ++ LF
                              ++ "URL: " ++ (R2_URL ++ "/" ++ name) ++ LF
                              ++ "Type: " ++ ct));
                  Resource
                    {| res_uri := R2_URL ++ "/" ++ name;
                       res_blob := Some (JStr fileData);
                       res_text := None;
                       res_mimeType := Some ct |}] |}
          else text_result ("Error uploading to R2: Upload failed: "
                            ++ string_of_Z (status r) ++ " - " ++ statusText r)),
     asked_in s1 req w).
Proof.
  intros Hax. unfold uploadAudioToR2, try_catch, bind.
  rewrite finalFileName_run. rewrite (await_resolved _ _ _ _ Hax).
  destruct ((status r =? 200) || (status r =? 201))%Z; reflexivity.
Qed.

Lemma upload_rejected (e : JsError) (w : World) :
  axios req (world s1) = (Rejected e, w) ->
  uploadAudioToR2 fileData fileName contentType s =
    (inr (text_result ("Error uploading to R2: "
                       ++ js_String (bestEffortMessage e))),
     asked_in s1 req w).
Proof.
  intros Hax. unfold uploadAudioToR2, try_catch, bind.
  rewrite finalFileName_run. rewrite (await_rejected _ _ _ _ Hax).
  reflexivity.
Qed.

(** Whatever the upstream answers, the only resource an upload can return
    carries the payload it was given. *)
Lemma upload_blobs :
  Forall (fun b => b = Some (JStr fileData))
         (blobs (returned (uploadAudioToR2 fileData fileName contentType s))).
Proof.
  destruct (axios req (world s1)) as [[r|e] w] eqn:Hax.
  - rewrite (upload_resolved r w Hax). unfold returned. cbn [fst].
    destruct ((status r =? 200) || (status r =? 201))%Z; cbn; auto.
  - rewrite (upload_rejected e w Hax). cbn. auto.
Qed.

End Upload.

(** C8. With no declared content type, a payload whose base64 text starts
    with "UklGR" is classified "audio/wav" with extension "wav", and any other
    payload "audio/mp3" with extension "mp3"; the generated file name ends in
    that extension and a successful upload reports that type. *)
Theorem media_type_classification {RT : Runtime} (fileData : string) :
  (startsWith fileData "UklGR" = true ->
   finalContentType None fileData = "audio/wav"
   /\ extension (finalContentType None fileData) = "wav")
  /\
  (startsWith fileData "UklGR" = false ->
   finalContentType None fileData = "audio/mp3"
   /\ extension (finalContentType None fileData) = "mp3")
  /\
  (forall (s : State) (r : AxiosResponse) (w : World),
     let ct := finalContentType None fileData in
     let name := "audio-" ++ fst (uuid_v4 (world s)) ++ "." ++ extension ct in
     axios (r2_request fileData ct name) (world (state_named None s))
       = (Resolved r, w) ->
     status r = 200%Z ->
     exists t : string,
       fst (uploadAudioToR2 fileData None None s) =
         inr {| content :=
                  [Text (JStr t);
                   Resource
                     {| res_uri := R2_URL ++ "/" ++ name;
                        res_blob := Some (JStr fileData);
                        res_text := None;
                        res_mimeType := Some ct |}] |}).
Proof.
  split; [|split].
  - unfold finalContentType. cbn [of_optional truthy negb].
    intros ->. split; reflexivity.
  - unfold finalContentType. cbn [of_optional truthy negb].
    intros ->. split; reflexivity.
  - intros s r w ct name Hax H200. subst ct name.
    rewrite (upload_resolved fileData None None s r w Hax).
    rewrite H200. cbn [fst Z.eqb orb]. eexists. reflexivity.
Qed.

Lemma media_type_classification_witness :
  finalContentType None "UklGRg==" = "audio/wav"
  /\ extension (finalContentType None "UklGRg==") = "wav"
  /\ finalContentType None "SUQzBAAAAAAA" = "audio/mp3"
  /\ extension (finalContentType None "SUQzBAAAAAAA") = "mp3"
  /\ exists t : string,
       Toy.run (Resolved (Toy.ok (JObj []))) (uploadAudioToR2 "UklGRg==" None None)
       = inr {| content :=
                  [Text (JStr t);
                   Resource
                     {| res_uri := R2_URL
                          ++ "/audio-1b4e28ba-2fa1-4d3b-a3f5-ef19b5a7633b.wav";
                        res_blob := Some (JStr "UklGRg==");
                        res_text := None;
                        res_mimeType := Some "audio/wav" |}] |}.
Proof.
  pose proof (media_type_classification
                (RT := Toy.runtime (Resolved (Toy.ok (JObj [])))) "UklGRg==")
    as [Hwav [_ Hup]].
  pose proof (media_type_classification
                (RT := Toy.runtime (Resolved (Toy.ok (JObj [])))) "SUQzBAAAAAAA")
    as [_ [Hmp3 _]].
  destruct (Hwav eq_refl) as [H1 H2]. destruct (Hmp3 eq_refl) as [H3 H4].
  repeat (split; [assumption|]).
  destruct (Hup (Toy.start _) (Toy.ok (JObj [])) 2%nat eq_refl eq_refl)
    as [t Ht].
  exists t. exact Ht.
Defined.

(** C9. The resource returned by an upload carries as its blob the base64
    text it was given, unchanged: no run of uploadAudioToR2 returns any other
    blob, and an upload answered 200 or 201 returns exactly that one.
    Likewise the resource of fetchAudioAndSave carries the [result.audio]
    value of the response as it came. *)
Theorem payload_round_trip {RT : Runtime} :
  (forall (fileData : string) (fileName contentType : option string) (s : State),
     Forall (fun b => b = Some (JStr fileData))
            (blobs (returned (uploadAudioToR2 fileData fileName contentType s))))
  /\
  (forall (fileData : string) (fileName contentType : option string) (s : State)
          (r : AxiosResponse) (w : World),
     let ct := finalContentType contentType fileData in
     axios (r2_request fileData ct (chosen_name fileName (extension ct) s))
           (world (state_named fileName s)) = (Resolved r, w) ->
     status r = 200%Z \/ status r = 201%Z ->
     blobs (returned (uploadAudioToR2 fileData fileName contentType s))
     = [Some (JStr fileData)])
  /\
  (forall (text lang : option string) (s : State) (r : AxiosResponse) (w : World),
     axios (melotts_request (with_default text "") (with_default lang "en"))
           (world s) = (Resolved r, w) ->
     status r = 200%Z ->
     truthy (get_prop (get_prop (data r) "result") "audio") = true ->
     blobs (returned (fetchAudioAndSave text lang s))
     = [Some (get_prop (get_prop (data r) "result") "audio")]).
Proof.
  split; [|split].
  - intros. apply upload_blobs.
  - intros fileData fileName contentType s r w ct Hax Hst. subst ct.
    rewrite (upload_resolved fileData fileName contentType s r w Hax).
    unfold returned. cbn [fst].
    destruct Hst as [-> | ->]; reflexivity.
  - intros text lang s r w Hax H200 Haudio.
    rewrite (fetchAudio_resolved text lang s r w Hax).
    rewrite H200. cbv zeta. rewrite Haudio. reflexivity.
Qed.

Lemma payload_round_trip_witness :
  blobs (returned (uploadAudioToR2 (RT := Toy.runtime Toy.created)
                     "UklGRg==" (Some "clip.wav") None (Toy.start Toy.created)))
  = [Some (JStr "UklGRg==")]
  /\ blobs (returned (fetchAudioAndSave (RT := Toy.runtime (Toy.spoken "SUQzBAAAAAAA"))
                        (Some "hello") None (Toy.start (Toy.spoken "SUQzBAAAAAAA"))))
     = [Some (JStr "SUQzBAAAAAAA")].
Proof.
  split.
  - destruct (payload_round_trip (RT := Toy.runtime Toy.created)) as [_ [H _]].
    exact (H "UklGRg==" (Some "clip.wav") None (Toy.start Toy.created)
             {| status := 201; statusText := "Created"; data := JObj [] |}
             1%nat eq_refl (or_intror eq_refl)).
  - destruct (payload_round_trip (RT := Toy.runtime (Toy.spoken "SUQzBAAAAAAA")))
      as [_ [_ H]].
    exact (H (Some "hello") None (Toy.start (Toy.spoken "SUQzBAAAAAAA"))
             (Toy.ok (JObj [("result", JObj [("audio", JStr "SUQzBAAAAAAA")]);
                            ("success", JBool true)]))
             1%nat eq_refl eq_refl eq_refl).
Defined.

(** ** Status classification *)

(** An upload answered 201 Created is reported as a success, with the
    resource: 200 is not the only status accepted on the write path. *)
Lemma upload_created_is_success :
  outcome_status Toy.created = Some 201%Z
  /\ Toy.run Toy.created (uploadAudioToR2 "UklGRg==" (Some "clip.wav") None)
     = inr {| content :=
                [Text (JStr ("File successfully uploaded to R2 storage." ++ LF
                             ++ "File: clip.wav" ++ LF
                             ++ "URL: " ++ R2_URL ++ "/clip.wav" ++ LF
                             ++ "Type: audio/wav"));
                 Resource
                   {| res_uri := R2_URL ++ "/clip.wav";
                      res_blob := Some (JStr "UklGRg==");
                      res_text := None;
                      res_mimeType := Some "audio/wav" |}] |}.
Proof. split; reflexivity. Qed.

(** C7, amended. For fetchAudioAndSave, summarizeText and getFromCloudflareKV
    status 200 is the sole success condition: any other status, 201 included
    (and, on the key-value path, other than 404, which gives the not-found
    text), is classified as a failure, whether axios resolves with the
    response or rejects with it.  The error that reaches the [catch] clause
    carries the status code (in its message "Request failed: <status> -
    <statusText>" for a response that axios resolved with, in its response
    for one that axios rejected) and the result is the single error text of
    the tool with the best-effort message of that error.  For uploadAudioToR2
    both 200 and 201 are successes, and any other status is a failure in the
    same way, with the message "Upload failed: <status> - <statusText>" for a
    resolved response. *)
Theorem status_classification {RT : Runtime} :
  (forall (text lang : option string) (s : State) (o : AxiosOutcome) (w : World)
          (code : Z),
     let req := melotts_request (with_default text "") (with_default lang "en") in
     axios req (world s) = (o, w) ->
     outcome_status o = Some code ->
     code <> 200%Z ->
     exists e : JsError,
       carries_status e code
       /\ fetchAudioAndSave text lang s =
            (inr {| content :=
                      [Text (JStr ("Error: " ++ js_String (bestEffortMessage e)))] |},
             asked_in s req w)
       /\ (forall r, o = Resolved r ->
             js_String (bestEffortMessage e)
             = "Request failed: " ++ string_of_Z (status r)
               ++ " - " ++ statusText r)
       /\ (forall e', o = Rejected e' -> e = e'))
  /\
  (forall (text : string) (s : State) (o : AxiosOutcome) (w : World) (code : Z),
     axios (bart_request text) (world s) = (o, w) ->
     outcome_status o = Some code ->
     code <> 200%Z ->
     exists e : JsError,
       carries_status e code
       /\ summarizeText text s =
            (inr {| content :=
                      [Text (JStr ("Error: " ++ js_String (bestEffortMessage e)))] |},
             asked_in s (bart_request text) w)
       /\ (forall r, o = Resolved r ->
             js_String (bestEffortMessage e)
             = "Request failed: " ++ string_of_Z (status r)
               ++ " - " ++ statusText r)
       /\ (forall e', o = Rejected e' -> e = e'))
  /\
  (forall (key : string) (namespaceId : option string) (s : State)
          (encodedKey : string) (o : AxiosOutcome) (w : World) (code : Z),
     let req := kv_request (finalNamespaceId namespaceId) encodedKey in
     encodeURIComponent key = inr encodedKey ->
     axios req (world s) = (o, w) ->
     outcome_status o = Some code ->
     code <> 200%Z -> code <> 404%Z ->
     exists e : JsError,
       carries_status e code
       /\ getFromCloudflareKV key namespaceId s =
            (inr {| content :=
                      [Text (JStr ("Error retrieving from Cloudflare KV: "
                                   ++ js_String (bestEffortMessage e)))] |},
             asked_in s req w)
       /\ (forall r, o = Resolved r ->
             js_String (bestEffortMessage e)
             = "Request failed: " ++ string_of_Z (status r)
               ++ " - " ++ statusText r)
       /\ (forall e', o = Rejected e' -> e = e'))
  /\
  (forall (fileData : string) (fileName contentType : option string) (s : State)
          (o : AxiosOutcome) (w : World),
     let ct := finalContentType contentType fileData in
     let req := r2_request fileData ct (chosen_name fileName (extension ct) s) in
     axios req (world (state_named fileName s)) = (o, w) ->
     (forall r, o = Resolved r ->
        status r = 200%Z \/ status r = 201%Z ->
        exists t rd,
          uploadAudioToR2 fileData fileName contentType s =
            (inr {| content := [Text (JStr t); Resource rd] |},
             asked_in (state_named fileName s) req w)
          /\ String.prefix "File successfully uploaded" t = true)
     /\
     (forall code : Z,
        outcome_status o = Some code ->
        code <> 200%Z -> code <> 201%Z ->
        exists e : JsError,
          carries_status e code
          /\ uploadAudioToR2 fileData fileName contentType s =
               (inr {| content :=
                         [Text (JStr ("Error uploading to R2: "
                                      ++ js_String (bestEffortMessage e)))] |},
                asked_in (state_named fileName s) req w)
          /\ (forall r, o = Resolved r ->
                js_String (bestEffortMessage e)
                = "Upload failed: " ++ string_of_Z (status r)
                  ++ " - " ++ statusText r)
          /\ (forall e', o = Rejected e' -> e = e'))).
Proof.
  split; [|split; [|split]].
  - intros text lang s o w code req Hax Hcode H200. subst req.
    destruct o as [r|e]; cbn in Hcode.
    + injection Hcode as <-.
      exists (Error ("Request failed: " ++ string_of_Z (status r)
                     ++ " - " ++ statusText r)).
      split; [left; apply includes_app|]. split; [|split].
      * rewrite (fetchAudio_resolved text lang s r w Hax).
        apply Z.eqb_neq in H200. rewrite H200. reflexivity.
      * intros r' [= <-]. reflexivity.
      * intros e' [=].
    + exists e. split; [right; exact Hcode|]. split; [|split].
      * exact (fetchAudio_rejected text lang s e w Hax).
      * intros r [=].
      * intros e' [= <-]. reflexivity.
  - intros text s o w code Hax Hcode H200.
    destruct o as [r|e]; cbn in Hcode.
    + injection Hcode as <-.
      exists (Error ("Request failed: " ++ string_of_Z (status r)
                     ++ " - " ++ statusText r)).
      split; [left; apply includes_app|]. split; [|split].
      * rewrite (summarize_resolved text s r w Hax).
        apply Z.eqb_neq in H200. rewrite H200. reflexivity.
      * intros r' [= <-]. reflexivity.
      * intros e' [=].
    + exists e. split; [right; exact Hcode|]. split; [|split].
      * exact (summarize_rejected text s e w Hax).
      * intros r [=].
      * intros e' [= <-]. reflexivity.
  - intros key namespaceId s encodedKey o w code req Henc Hax Hcode H200 H404.
    subst req. destruct o as [r|e]; cbn in Hcode.
    + injection Hcode as <-.
      exists (Error ("Request failed: " ++ string_of_Z (status r)
                     ++ " - " ++ statusText r)).
      split; [left; apply includes_app|]. split; [|split].
      * rewrite (kv_resolved key namespaceId s encodedKey w Henc r Hax).
        apply Z.eqb_neq in H200, H404. rewrite H200, H404. reflexivity.
      * intros r' [= <-]. reflexivity.
      * intros e' [=].
    + exists e. split; [right; exact Hcode|]. split; [|split].
      * rewrite (kv_rejected key namespaceId s encodedKey w Henc e Hax).
        replace (response_status_is e 404) with false; [reflexivity|].
        symmetry. apply not_true_is_false. intros Hs.
        apply response_status_is_spec in Hs. cbn in Hs.
        rewrite Hs in Hcode. injection Hcode as <-. contradiction.
      * intros r [=].
      * intros e' [= <-]. reflexivity.
  - intros fileData fileName contentType s o w ct req Hax. subst ct req. split.
    + intros r -> Hst.
      rewrite (upload_resolved fileData fileName contentType s r w Hax).
      replace ((status r =? 200) || (status r =? 201))%Z with true
        by (destruct Hst as [-> | ->]; reflexivity).
      eexists. eexists. split; reflexivity.
    + intros code Hcode H200 H201. destruct o as [r|e]; cbn in Hcode.
      * injection Hcode as <-.
        exists (Error ("Upload failed: " ++ string_of_Z (status r)
                       ++ " - " ++ statusText r)).
        split; [left; apply includes_app|]. split; [|split].
        -- rewrite (upload_resolved fileData fileName contentType s r w Hax).
           apply Z.eqb_neq in H200, H201. rewrite H200, H201. reflexivity.
        -- intros r' [= <-]. reflexivity.
        -- intros e' [=].
      * exists e. split; [right; exact Hcode|]. split; [|split].
        -- exact (upload_rejected fileData fileName contentType s e w Hax).
        -- intros r [=].
        -- intros e' [= <-]. reflexivity.
Qed.

Lemma status_classification_witness :
  Toy.run Toy.created (fetchAudioAndSave (Some "hello") None)
  = inr {| content := [Text (JStr "Error: Request failed: 201 - Created")] |}
  /\ Toy.run Toy.upstream_down (fetchAudioAndSave (Some "hello") None)
     = inr {| content :=
                [Text (JStr "Error: Request failed with status code 500")] |}
  /\ Toy.run Toy.forbidden (summarizeText "a long text")
     = inr {| content := [Text (JStr "Error: Authentication error")] |}
  /\ Toy.run Toy.created (getFromCloudflareKV "missing-key" None)
     = inr {| content :=
                [Text (JStr "Error retrieving from Cloudflare KV: Request failed: 201 - Created")] |}
  /\ (exists t rd,
        Toy.run Toy.created (uploadAudioToR2 "UklGRg==" (Some "clip.wav") None)
        = inr {| content := [Text (JStr t); Resource rd] |})
  /\ Toy.run (Resolved {| status := 204; statusText := "No Content"; data := JStr "" |})
       (uploadAudioToR2 "UklGRg==" (Some "clip.wav") None)
     = inr {| content :=
                [Text (JStr "Error uploading to R2: Upload failed: 204 - No Content")] |}
  /\ Toy.run Toy.upstream_down (uploadAudioToR2 "UklGRg==" (Some "clip.wav") None)
     = inr {| content :=
                [Text (JStr "Error uploading to R2: Request failed with status code 500")] |}.
Proof.
  pose (r201 := {| status := 201; statusText := "Created"; data := JObj [] |}).
  set (r204 := {| status := 204; statusText := "No Content"; data := JStr "" |}).
  destruct (status_classification (RT := Toy.runtime Toy.created))
    as [Hf [_ [Hk Hu]]].
  destruct (status_classification (RT := Toy.runtime Toy.upstream_down))
    as [Hf' [_ [_ Hu'']]].
  destruct (status_classification (RT := Toy.runtime Toy.forbidden))
    as [_ [Hs _]].
  destruct (status_classification (RT := Toy.runtime (Resolved r204)))
    as [_ [_ [_ Hu']]].
  unfold Toy.run.
  split; [|split; [|split; [|split; [|split; [|split]]]]].
  - destruct (Hf (Some "hello") None (Toy.start _) Toy.created 1%nat 201%Z
                eq_refl eq_refl ltac:(discriminate))
      as [e [_ [Hrun [Hmsg _]]]].
    rewrite Hrun, (Hmsg r201 eq_refl). reflexivity.
  - destruct (Hf' (Some "hello") None (Toy.start _) Toy.upstream_down 1%nat 500%Z
                eq_refl eq_refl ltac:(discriminate))
      as [e [_ [Hrun [_ He]]]].
    rewrite Hrun, (He _ eq_refl). reflexivity.
  - destruct (Hs "a long text" (Toy.start _) Toy.forbidden 1%nat 403%Z
                eq_refl eq_refl ltac:(discriminate))
      as [e [_ [Hrun [_ He]]]].
    rewrite Hrun, (He _ eq_refl). reflexivity.
  - destruct (Hk "missing-key" None (Toy.start _) "missing-key" Toy.created
                1%nat 201%Z eq_refl eq_refl eq_refl
                ltac:(discriminate) ltac:(discriminate))
      as [e [_ [Hrun [Hmsg _]]]].
    rewrite Hrun, (Hmsg r201 eq_refl). reflexivity.
  - destruct (Hu "UklGRg==" (Some "clip.wav") None (Toy.start _) Toy.created
                1%nat eq_refl) as [Hok _].
    destruct (Hok r201 eq_refl (or_intror eq_refl)) as [t [rd [Hrun _]]].
    exists t, rd. rewrite Hrun. reflexivity.
  - destruct (Hu' "UklGRg==" (Some "clip.wav") None (Toy.start _) (Resolved r204)
                1%nat eq_refl) as [_ Hko].
    destruct (Hko 204%Z eq_refl ltac:(discriminate) ltac:(discriminate))
      as [e [_ [Hrun [Hmsg _]]]].
    rewrite Hrun, (Hmsg r204 eq_refl). reflexivity.
  - destruct (Hu'' "UklGRg==" (Some "clip.wav") None (Toy.start _)
                Toy.upstream_down 1%nat eq_refl) as [_ Hko].
    destruct (Hko 500%Z eq_refl ltac:(discriminate) ltac:(discriminate))
      as [e [_ [Hrun [_ He]]]].
    rewrite Hrun, (He _ eq_refl). reflexivity.
Defined.

(** ** The object [sublinkTexts] *)

Section Dictionary.

Implicit Types (o : Dict) (k v : string).

Lemma obj_get_set_same o k v : obj_get (obj_set o k v) k = Some v.
Proof.
  unfold obj_get. induction o as [|[k' v'] o IH]; simpl.
  - now rewrite String.eqb_refl.
  - destruct (k' =? k) eqn:E; simpl; rewrite E; [reflexivity | exact IH].
Qed.

Lemma obj_get_set_other o k v k' :
  k' <> k -> obj_get (obj_set o k v) k' = obj_get o k'.
Proof.
  intros Hne. unfold obj_get. induction o as [|[k0 v0] o IH]; simpl.
  - apply not_eq_sym in Hne. apply String.eqb_neq in Hne. now rewrite Hne.
  - destruct (k0 =? k) eqn:E; simpl.
    + apply String.eqb_eq in E. subst k0.
      apply not_eq_sym in Hne. apply String.eqb_neq in Hne. now rewrite Hne.
    + destruct (k0 =? k'); [reflexivity | exact IH].
Qed.

(** An assignment to a key already present leaves the keys as they are;
    a new key goes to the end. *)
Lemma obj_keys_set_old o k v :
  In k (obj_keys o) -> obj_keys (obj_set o k v) = obj_keys o.
Proof.
  unfold obj_keys. induction o as [|[k' v'] o IH]; simpl; [contradiction|].
  intros Hin. destruct (k' =? k) eqn:E; simpl; [reflexivity|].
  f_equal. apply IH. destruct Hin as [Heq|Hin]; [|exact Hin].
  apply String.eqb_neq in E. contradiction.
Qed.

Lemma obj_keys_set_new o k v :
  ~ In k (obj_keys o) -> obj_keys (obj_set o k v) = (obj_keys o ++ [k])%list.
Proof.
  unfold obj_keys. induction o as [|[k' v'] o IH]; simpl; [reflexivity|].
  intros Hnin. destruct (k' =? k) eqn:E; simpl.
  - apply String.eqb_eq in E. tauto.
  - f_equal. apply IH. tauto.
Qed.

Lemma in_dec_key k (l : list string) : {In k l} + {~ In k l}.
Proof. apply in_dec, string_dec. Qed.

Lemma obj_keys_set_in o k v x :
  In x (obj_keys (obj_set o k v)) <-> x = k \/ In x (obj_keys o).
Proof.
  destruct (in_dec_key k (obj_keys o)) as [Hin|Hnin].
  - rewrite (obj_keys_set_old o k v Hin). split; [tauto|].
    intros [->|H]; assumption.
  - rewrite (obj_keys_set_new o k v Hnin), in_app_iff. simpl.
    split; [intros [H|[H|[]]]; auto | intros [H|H]; auto].
Qed.

Lemma obj_keys_set_NoDup o k v :
  NoDup (obj_keys o) -> NoDup (obj_keys (obj_set o k v)).
Proof.
  intros Hnd. destruct (in_dec_key k (obj_keys o)) as [Hin|Hnin].
  - now rewrite (obj_keys_set_old o k v Hin).
  - rewrite (obj_keys_set_new o k v Hnin).
    apply NoDup_app; [assumption | repeat constructor; intros [] |].
    intros x Hx [<-|[]]. contradiction.
Qed.

Lemma obj_keys_set_length o k v :
  length (obj_keys (obj_set o k v)) <= S (length (obj_keys o)).
Proof.
  destruct (in_dec_key k (obj_keys o)) as [Hin|Hnin].
  - rewrite (obj_keys_set_old o k v Hin). lia.
  - rewrite (obj_keys_set_new o k v Hnin), length_app. simpl. lia.
Qed.

Lemma set_all_cons o k v (kvs : list (string * string)) :
  set_all o ((k, v) :: kvs) = set_all (obj_set o k v) kvs.
Proof. reflexivity. Qed.

Lemma set_all_app o (l1 l2 : list (string * string)) :
  set_all o (l1 ++ l2) = set_all (set_all o l1) l2.
Proof. apply fold_left_app. Qed.

Lemma set_all_keys_in (kvs : list (string * string)) : forall o x,
  In x (obj_keys (set_all o kvs)) <-> In x (obj_keys o) \/ In x (map fst kvs).
Proof.
  induction kvs as [|[k v] kvs IH]; intros o x.
  - simpl. tauto.
  - rewrite set_all_cons, IH, obj_keys_set_in. simpl.
    intuition (subst; auto).
Qed.

Lemma set_all_keys_NoDup (kvs : list (string * string)) : forall o,
  NoDup (obj_keys o) -> NoDup (obj_keys (set_all o kvs)).
Proof.
  induction kvs as [|[k v] kvs IH]; intros o Hnd; [assumption|].
  rewrite set_all_cons. apply IH, obj_keys_set_NoDup, Hnd.
Qed.

Lemma set_all_keys_length (kvs : list (string * string)) : forall o,
  length (obj_keys (set_all o kvs)) <= length (obj_keys o) + length kvs.
Proof.
  induction kvs as [|[k v] kvs IH]; intros o; [simpl; lia|].
  rewrite set_all_cons. specialize (IH (obj_set o k v)).
  pose proof (obj_keys_set_length o k v). simpl. lia.
Qed.

(** Fresh, pairwise distinct keys are appended in the order assigned. *)
Lemma set_all_keys_fresh (kvs : list (string * string)) : forall o,
  NoDup (obj_keys o ++ map fst kvs) ->
  obj_keys (set_all o kvs) = (obj_keys o ++ map fst kvs)%list.
Proof.
  induction kvs as [|[k v] kvs IH]; intros o Hnd.
  - simpl. now rewrite app_nil_r.
  - rewrite set_all_cons. cbn [map fst] in *.
    assert (Hnin : ~ In k (obj_keys o)).
    { apply NoDup_remove_2 in Hnd. rewrite in_app_iff in Hnd. tauto. }
    rewrite IH; rewrite (obj_keys_set_new o k v Hnin).
    + now rewrite <- app_assoc.
    + rewrite <- app_assoc. exact Hnd.
Qed.

(** Keys not assigned keep their value. *)
Lemma set_all_get_other (kvs : list (string * string)) : forall o k,
  ~ In k (map fst kvs) -> obj_get (set_all o kvs) k = obj_get o k.
Proof.
  induction kvs as [|[k' v'] kvs IH]; intros o k Hnin.
  - reflexivity.
  - cbn [map fst In] in Hnin. rewrite set_all_cons, IH by tauto.
    apply obj_get_set_other. intros ->. tauto.
Qed.

(** The value of a key is the one of its last assignment. *)
Lemma set_all_get_last (kvs : list (string * string)) o i k v :
  nth_error kvs i = Some (k, v) ->
  ~ In k (map fst (skipn (S i) kvs)) ->
  obj_get (set_all o kvs) k = Some v.
Proof.
  intros Hnth Hlater.
  destruct (nth_error_split kvs i Hnth) as [l1 [l2 [Hsplit Hlen]]].
  assert (Hl2 : skipn (S i) kvs = l2).
  { subst kvs i. replace (S (length l1)) with (length (l1 ++ [(k, v)])).
    - change (l1 ++ (k, v) :: l2)%list with (l1 ++ [(k, v)] ++ l2)%list.
      rewrite app_assoc, skipn_app, skipn_all, Nat.sub_diag. reflexivity.
    - rewrite length_app. simpl. lia. }
  rewrite Hl2 in Hlater. subst kvs.
  rewrite set_all_app, set_all_cons, set_all_get_other by assumption.
  apply obj_get_set_same.
Qed.

Lemma obj_get_of_key o k :
  In k (obj_keys o) -> exists v, obj_get o k = Some v.
Proof.
  unfold obj_keys, obj_get. induction o as [|[k' v'] o IH]; simpl; [contradiction|].
  intros [<-|Hin].
  - rewrite String.eqb_refl. eauto.
  - destruct (k' =? k); eauto.
Qed.

End Dictionary.

Lemma nth_error_combine {A B : Type} (l : list A) (l' : list B) :
  forall (i : nat) (a : A) (b : B),
    nth_error l i = Some a -> nth_error l' i = Some b ->
    nth_error (combine l l') i = Some (a, b).
Proof.
  revert l'. induction l as [|x l IH]; intros l' i a b Ha Hb.
  - destruct i; discriminate.
  - destruct l' as [|y l']; [destruct i; discriminate|].
    destruct i as [|i]; simpl in *.
    + congruence.
    + now apply IH.
Qed.

(** ** scrapeUrlAndSublinks *)

Section Crawl.

Context {RT : Runtime}.

Variable url : string.

Local Abbreviation fetch u := (get_request u []).
Local Abbreviation resolves := (Forall2 (fun h u => new_URL h url = inr u)).

(** One turn of the loop on a link that resolves: whatever the fetch does,
    the loop goes on with the entry of that link assigned. *)
Lemma crawl_step (h : string) (rest : list string) (d : Dict) (s : State)
    (u : string) :
  new_URL h url = inr u ->
  crawl_sublinks url (h :: rest) d s =
    crawl_sublinks url rest
      (obj_set d u (entry_of (fst (axios (fetch u) (world s)))))
      (asked_in s (fetch u) (snd (axios (fetch u) (world s)))).
Proof.
  intros Hu. cbn [crawl_sublinks]. unfold bind at 1. unfold lift at 1.
  rewrite Hu. unfold bind at 1. unfold try_catch, bind, await_axios, lift.
  unfold entry_of, fetched_text, asked_in.
  destruct (axios (fetch u) (world s)) as [[r|e] w]; cbn [fst snd].
  - destruct (cheerio_load (data r)) as [e|p]; reflexivity.
  - reflexivity.
Qed.

(** One turn of the loop on a link that does not resolve: the loop is left
    by the exception, with the entries gathered so far. *)
Lemma crawl_step_invalid (h : string) (rest : list string) (d : Dict)
    (s : State) (e : JsError) :
  new_URL h url = inl e ->
  crawl_sublinks url (h :: rest) d s = (inl e, s).
Proof.
  intros Hu. cbn [crawl_sublinks]. unfold bind at 1. unfold lift at 1.
  now rewrite Hu.
Qed.

Lemma answers_length (urls : list string) : forall w,
  length (answers urls w) = length urls.
Proof.
  induction urls as [|u urls IH]; intros w; simpl; [reflexivity|].
  destruct (axios (fetch u) w) as [o w']. simpl. now rewrite IH.
Qed.

Lemma assigned_keys (urls : list string) (w : World) :
  map fst (combine urls (map entry_of (answers urls w))) = urls.
Proof.
  revert w. induction urls as [|u urls IH]; intros w; simpl; [reflexivity|].
  destruct (axios (fetch u) w) as [o w']. simpl. now rewrite IH.
Qed.

(** The loop on links that all resolve: every link is fetched, in order, and
    every fetch ends in an assignment. *)
Lemma crawl_sublinks_run (hrefs urls : list string) :
  resolves hrefs urls ->
  forall (d : Dict) (s : State),
    crawl_sublinks url hrefs d s =
      (inr (set_all d (combine urls (map entry_of (answers urls (world s))))),
       {| world := world_after urls (world s);
          requests := (requests s ++ map (fun u => fetch u) urls)%list |}).
Proof.
  induction 1 as [|h u hrefs urls Hu _ IH]; intros d s.
  - destruct s as [w reqs]. cbn. now rewrite app_nil_r.
  - rewrite (crawl_step h hrefs d s u Hu), IH.
    cbn [answers world_after map asked_in world requests].
    destruct (axios (fetch u) (world s)) as [o w'].
    cbn [fst snd combine map]. rewrite set_all_cons.
    rewrite <- app_assoc. reflexivity.
Qed.

(** The loop up to a link that does not resolve. *)
Lemma crawl_sublinks_invalid (pre urls : list string) (h : string)
    (post : list string) (e : JsError) :
  resolves pre urls ->
  new_URL h url = inl e ->
  forall (d : Dict) (s : State),
    crawl_sublinks url (pre ++ h :: post) d s =
      (inl e,
       {| world := world_after urls (world s);
          requests := (requests s ++ map (fun u => fetch u) urls)%list |}).
Proof.
  intros Hpre He. induction Hpre as [|h0 u pre urls Hu _ IH]; intros d s.
  - cbn [app]. rewrite (crawl_step_invalid h post d s e He).
    destruct s as [w reqs]. cbn. now rewrite app_nil_r.
  - cbn [app]. rewrite (crawl_step h0 (pre ++ h :: post) d s u Hu), IH.
    cbn [world_after map asked_in world requests].
    rewrite <- app_assoc. reflexivity.
Qed.

Variables (s : State) (response : AxiosResponse) (w1 : World) (page : Page).

Hypothesis root_fetched : axios (fetch url) (world s) = (Resolved response, w1).
Hypothesis root_parsed : cheerio_load (data response) = inr page.

(** The crawl of a page whose first five links resolve. *)
Lemma crawl_run (urls : list string) :
  resolves (firstn 5 (anchor_hrefs page)) urls ->
  crawl url s =
    (inr {| main_url := url;
            main_text := trim (body_text page);
            sublinks :=
              set_all [] (combine urls (map entry_of (answers urls w1))) |},
     {| world := world_after urls w1;
        requests := (requests s ++ fetch url :: map (fun u => fetch u) urls)%list |}).
Proof.
  intros Hres. unfold crawl. unfold bind at 1.
  rewrite (await_resolved _ _ _ _ root_fetched).
  unfold bind at 1. unfold lift at 1. rewrite root_parsed.
  unfold bind. rewrite (crawl_sublinks_run _ _ Hres).
  unfold ret, asked_in. cbn [world requests].
  rewrite <- app_assoc. reflexivity.
Qed.

Lemma scrape_run (urls : list string) :
  resolves (firstn 5 (anchor_hrefs page)) urls ->
  scrapeUrlAndSublinks url s =
    (inr (crawl_resource url
            {| main_url := url;
               main_text := trim (body_text page);
               sublinks :=
                 set_all [] (combine urls (map entry_of (answers urls w1))) |}),
     {| world := world_after urls w1;
        requests := (requests s ++ fetch url :: map (fun u => fetch u) urls)%list |}).
Proof.
  intros Hres. unfold scrapeUrlAndSublinks, try_catch, bind.
  rewrite (crawl_run urls Hres). reflexivity.
Qed.

(** The crawl of a page one of whose first five links does not resolve:
    the exception reaches the outer [catch] and the pages fetched so far are
    dropped. *)
Lemma scrape_invalid (pre urls : list string) (h : string)
    (post : list string) (e : JsError) :
  firstn 5 (anchor_hrefs page) = (pre ++ h :: post)%list ->
  resolves pre urls ->
  new_URL h url = inl e ->
  scrapeUrlAndSublinks url s =
    (inr (text_result ("Error: " ++ message e)),
     {| world := world_after urls w1;
        requests := (requests s ++ fetch url :: map (fun u => fetch u) urls)%list |}).
Proof.
  intros Hsplit Hpre He.
  unfold scrapeUrlAndSublinks, try_catch. unfold bind at 1. unfold crawl.
  unfold bind at 1. rewrite (await_resolved _ _ _ _ root_fetched).
  unfold bind at 1. unfold lift at 1. rewrite root_parsed.
  unfold bind at 1. rewrite Hsplit.
  rewrite (crawl_sublinks_invalid pre urls h post e Hpre He).
  unfold ret, asked_in. cbn [world requests].
  rewrite <- app_assoc. reflexivity.
Qed.

(** A failed root fetch is the error result. *)
Lemma scrape_root_rejected (s0 : State) (e : JsError) (w : World) :
  axios (fetch url) (world s0) = (Rejected e, w) ->
  scrapeUrlAndSublinks url s0 =
    (inr (text_result ("Error: " ++ message e)), asked_in s0 (fetch url) w).
Proof.
  intros Hax. unfold scrapeUrlAndSublinks, try_catch. unfold bind at 1.
  unfold crawl. unfold bind at 1. rewrite (await_rejected _ _ _ _ Hax).
  reflexivity.
Qed.

End Crawl.

(** Two crawls whose root is fetched and in which the fetch of a resolved
    sublink fails.  On [/twice] the link that failed is fetched again, with
    success, and the mapping returned holds the page text under its URL, not
    an error description.  On [/broken] the link after the failed one does
    not resolve and the call returns the error result: no mapping and no root
    text. *)
Lemma failed_fetch_can_leave_no_trace :
  answers (RT := Flaky.runtime)
    ["https://example.test/p9"; "https://example.test/p9"] 1%nat
  = [Rejected Flaky.busy;
     Resolved (Toy.ok (JStr (Toy.html_leaf "Page nine")))]
  /\ Flaky.run (crawl "https://example.test/twice")
     = inr {| main_url := "https://example.test/twice";
              main_text := "Index";
              sublinks := [("https://example.test/p9", "Page nine")] |}
  /\ Flaky.asked (scrapeUrlAndSublinks "https://example.test/broken")
     = ["https://example.test/broken"; "https://example.test/p2"]
  /\ fst (Flaky.flaky_axios (get_request "https://example.test/p2" []) 1%nat)
     = Rejected (Toy.http_error 500 "Internal Server Error" (JStr "oops"))
  /\ Flaky.run (scrapeUrlAndSublinks "https://example.test/broken")
     = inr {| content := [Text (JStr "Error: Invalid URL")] |}.
Proof. repeat split; reflexivity. Qed.

(** C1, amended. A sublink whose fetch fails gets the error description as
    its entry, the entries of the other links stay as they are, and the loop
    goes on to the next link.  So, for a root that was fetched and whose
    first five links resolve, the crawl returns the root's text and a mapping
    in which every link has an entry: the error description for a link that
    failed, the page text for a link that succeeded (for a URL that occurs
    more than once among the links, the entry is that of its last
    occurrence). *)
Theorem sublink_failure_is_isolated {RT : Runtime} (url : string) :
  (forall (h : string) (rest : list string) (d : Dict) (s : State) (u : string)
          (o : AxiosOutcome) (w : World) (e : JsError),
     new_URL h url = inr u ->
     axios (get_request u []) (world s) = (o, w) ->
     fetched_text o = inl e ->
     let d' := obj_set d u ("Error fetching sublink: " ++ message e) in
     crawl_sublinks url (h :: rest) d s
     = crawl_sublinks url rest d' (asked_in s (get_request u []) w)
     /\ obj_get d' u = Some ("Error fetching sublink: " ++ message e)
     /\ (forall k, k <> u -> obj_get d' k = obj_get d k)
     /\ (forall k, In k (obj_keys d) -> In k (obj_keys d')))
  /\
  (forall (s : State) (response : AxiosResponse) (w1 : World) (page : Page)
          (urls : list string),
     axios (get_request url []) (world s) = (Resolved response, w1) ->
     cheerio_load (data response) = inr page ->
     Forall2 (fun h u => new_URL h url = inr u)
             (firstn 5 (anchor_hrefs page)) urls ->
     exists (links : Dict) (s' : State),
       crawl url s =
         (inr {| main_url := url;
                 main_text := trim (body_text page);
                 sublinks := links |}, s')
       /\ scrapeUrlAndSublinks url s =
            (inr (crawl_resource url
                    {| main_url := url;
                       main_text := trim (body_text page);
                       sublinks := links |}), s')
       /\ (forall u, In u urls -> exists v, obj_get links u = Some v)
       /\ (forall (i : nat) (u : string) (o : AxiosOutcome),
             nth_error urls i = Some u ->
             nth_error (answers urls w1) i = Some o ->
             ~ In u (skipn (S i) urls) ->
             obj_get links u =
               Some match fetched_text o with
                    | inl e => "Error fetching sublink: " ++ message e
                    | inr t => t
                    end)).
Proof.
  split.
  - intros h rest d s u o w e Hu Hax Hfail d'. subst d'. split; [|split; [|split]].
    + rewrite (crawl_step url h rest d s u Hu), Hax. cbn [fst snd].
      unfold entry_of. rewrite Hfail. reflexivity.
    + apply obj_get_set_same.
    + intros k Hk. now apply obj_get_set_other.
    + intros k Hk. apply obj_keys_set_in. now right.
  - intros s response w1 page urls Hroot Hparse Hres.
    eexists. eexists. split; [|split; [|split]].
    + exact (crawl_run url s response w1 page Hroot Hparse urls Hres).
    + exact (scrape_run url s response w1 page Hroot Hparse urls Hres).
    + intros u Hin. apply obj_get_of_key, set_all_keys_in. right.
      now rewrite assigned_keys.
    + intros i u o Hu Ho Hlast.
      apply (set_all_get_last _ _ i).
      * apply nth_error_combine; [exact Hu|].
        rewrite nth_error_map, Ho. reflexivity.
      * now rewrite <- skipn_map, assigned_keys.
Qed.

Lemma sublink_failure_is_isolated_witness :
  exists links : Dict,
    Toy.run Toy.upstream_down (crawl "https://example.test/")
    = inr {| main_url := "https://example.test/";
             main_text := "Index";
             sublinks := links |}
    /\ obj_get links "https://example.test/p1" = Some "Page one"
    /\ obj_get links "https://example.test/p2"
       = Some "Error fetching sublink: Request failed with status code 500"
    /\ obj_get links "https://example.test/p3" = Some "Page three".
Proof.
  destruct (sublink_failure_is_isolated (RT := Toy.runtime Toy.upstream_down)
              "https://example.test/") as [_ Hcrawl].
  destruct (Hcrawl (Toy.start Toy.upstream_down)
              (Toy.ok (JStr (Toy.html_of Toy.hrefs_seven))) 1%nat
              (mkPage "Index" Toy.hrefs_seven)
              ["https://example.test/p1"; "https://example.test/p2";
               "https://example.test/p3"; "https://example.test/p4";
               "https://example.test/p5"]
              eq_refl eq_refl ltac:(repeat constructor))
    as [links [s' [Hrun [_ [_ Hentry]]]]].
  exists links. split; [|split; [|split]].
  - unfold Toy.run. rewrite Hrun. reflexivity.
  - apply (Hentry 0%nat _ (Resolved (Toy.ok (JStr (Toy.html_leaf "Page one"))))
             eq_refl eq_refl).
    cbn. intuition discriminate.
  - apply (Hentry 1%nat _
             (Rejected (Toy.http_error 500 "Internal Server Error" (JStr "oops")))
             eq_refl eq_refl).
    cbn. intuition discriminate.
  - apply (Hentry 2%nat _ (Resolved (Toy.ok (JStr (Toy.html_leaf "Page three"))))
             eq_refl eq_refl).
    cbn. intuition discriminate.
Defined.

(** ** Fan-out *)

(** A page with seven anchors that all point to one URL: five fetches are
    made and the mapping ends with a single key. *)
Lemma seven_anchors_one_key :
  Toy.toy_cheerio_load (JStr (Toy.html_of Toy.hrefs_same))
  = inr (mkPage "Index" Toy.hrefs_same)
  /\ length Toy.hrefs_same = 7
  /\ Toy.asked Toy.upstream_down (crawl "https://example.test/same")
     = ["https://example.test/same";
        "https://example.test/p1"; "https://example.test/p1";
        "https://example.test/p1"; "https://example.test/p1";
        "https://example.test/p1"]
  /\ Toy.run Toy.upstream_down (crawl "https://example.test/same")
     = inr {| main_url := "https://example.test/same";
              main_text := "Index";
              sublinks := [("https://example.test/p1", "Page one")] |}
  /\ length (obj_keys [("https://example.test/p1", "Page one")]) <> 5.
Proof. repeat split; try reflexivity. cbn. discriminate. Qed.

Lemma resolved_from (url : string) {RT : Runtime} (hrefs urls : list string) :
  Forall2 (fun h u => new_URL h url = inr u) hrefs urls ->
  forall k, In k urls -> exists h, In h hrefs /\ new_URL h url = inr k.
Proof.
  induction 1 as [|h u hrefs urls Hu _ IH]; intros k Hin; [contradiction|].
  destruct Hin as [<-|Hin].
  - exists h. split; [now left | exact Hu].
  - destruct (IH k Hin) as [h' [Hh' Hk]]. exists h'. split; [now right | exact Hk].
Qed.

(** C3, amended. For a root that was fetched and whose first min(K, 5)
    [href] values resolve, the crawler fetches exactly those min(K, 5) links,
    in document order.  The keys of the mapping are exactly the resolved
    URLs, each the resolution of one of those [href] values against the
    root: at most min(K, 5) keys, and exactly the resolved URLs in order when
    these are pairwise distinct, so five keys for a page with seven anchors
    whose first five links resolve to distinct URLs. *)
Theorem crawl_fan_out {RT : Runtime} (url : string) (s : State)
    (response : AxiosResponse) (w1 : World) (page : Page) (urls : list string) :
  axios (get_request url []) (world s) = (Resolved response, w1) ->
  cheerio_load (data response) = inr page ->
  Forall2 (fun h u => new_URL h url = inr u)
          (firstn 5 (anchor_hrefs page)) urls ->
  exists (c : CrawlResult) (s' : State),
    crawl url s = (inr c, s')
    /\ requests s'
       = (requests s ++ get_request url []
            :: map (fun u => get_request u []) urls)%list
    /\ length urls = Nat.min (length (anchor_hrefs page)) 5
    /\ (forall k, In k (obj_keys (sublinks c)) <-> In k urls)
    /\ (forall k, In k (obj_keys (sublinks c)) ->
          exists h, In h (firstn 5 (anchor_hrefs page))
                    /\ new_URL h url = inr k)
    /\ NoDup (obj_keys (sublinks c))
    /\ length (obj_keys (sublinks c)) <= length urls
    /\ (NoDup urls -> obj_keys (sublinks c) = urls)
    /\ (length (anchor_hrefs page) = 7 -> NoDup urls ->
        length (obj_keys (sublinks c)) = 5).
Proof.
  intros Hroot Hparse Hres.
  pose proof (crawl_run url s response w1 page Hroot Hparse urls Hres) as Hrun.
  set (links := set_all [] (combine urls (map entry_of (answers urls w1)))) in *.
  assert (Hlen : length urls = Nat.min (length (anchor_hrefs page)) 5).
  { rewrite <- (Forall2_length Hres), length_firstn. apply Nat.min_comm. }
  assert (Hkeys : forall k, In k (obj_keys links) <-> In k urls).
  { intros k. unfold links. rewrite set_all_keys_in, assigned_keys.
    simpl. tauto. }
  assert (Hfresh : NoDup urls -> obj_keys links = urls).
  { intros Hnd. unfold links. rewrite set_all_keys_fresh.
    - now rewrite assigned_keys.
    - now rewrite assigned_keys. }
  eexists. eexists. split; [exact Hrun|]. cbn [sublinks].
  split; [reflexivity|]. split; [exact Hlen|]. split; [exact Hkeys|].
  split; [|split; [|split; [|split]]].
  - intros k Hk. apply (resolved_from url _ _ Hres), Hkeys, Hk.
  - apply set_all_keys_NoDup. constructor.
  - unfold links.
    pose proof (set_all_keys_length
                  (combine urls (map entry_of (answers urls w1))) []) as Hle.
    rewrite length_combine, length_map, answers_length in Hle.
    simpl in Hle. lia.
  - exact Hfresh.
  - intros H7 Hnd. rewrite (Hfresh Hnd), Hlen, H7. reflexivity.
Qed.

Lemma crawl_fan_out_witness :
  exists c : CrawlResult,
    Toy.run Toy.upstream_down (crawl "https://example.test/") = inr c
    /\ Toy.asked Toy.upstream_down (crawl "https://example.test/")
       = ["https://example.test/";
          "https://example.test/p1"; "https://example.test/p2";
          "https://example.test/p3"; "https://example.test/p4";
          "https://example.test/p5"]
    /\ obj_keys (sublinks c)
       = ["https://example.test/p1"; "https://example.test/p2";
          "https://example.test/p3"; "https://example.test/p4";
          "https://example.test/p5"]
    /\ length (obj_keys (sublinks c)) = 5.
Proof.
  destruct (crawl_fan_out (RT := Toy.runtime Toy.upstream_down)
              "https://example.test/" (Toy.start Toy.upstream_down)
              (Toy.ok (JStr (Toy.html_of Toy.hrefs_seven))) 1%nat
              (mkPage "Index" Toy.hrefs_seven)
              ["https://example.test/p1"; "https://example.test/p2";
               "https://example.test/p3"; "https://example.test/p4";
               "https://example.test/p5"]
              eq_refl eq_refl ltac:(repeat constructor))
    as [c [s' [Hrun [Hreq [_ [_ [_ [_ [_ [Hkeys Hfive]]]]]]]]]].
  assert (Hnd : NoDup ["https://example.test/p1"; "https://example.test/p2";
                       "https://example.test/p3"; "https://example.test/p4";
                       "https://example.test/p5"]).
  { repeat constructor; cbn; intuition discriminate. }
  exists c. split; [|split; [|split]].
  - unfold Toy.run. rewrite Hrun. reflexivity.
  - unfold Toy.asked. rewrite Hrun. cbn [snd]. rewrite Hreq. reflexivity.
  - exact (Hkeys Hnd).
  - exact (Hfive eq_refl Hnd).
Defined.

(** ** Failures that reach the outer [catch] *)

(** C2. The call does return the error result after a successful root
    fetch: when one of the first five [href] values does not resolve, the
    exception of [new URL] is thrown outside the inner [try], reaches the
    outer [catch], and the whole call returns "Error: <message>" instead of
    the crawl result, although the root and the links before it were
    fetched. *)
Theorem invalid_href_fails_whole_call {RT : Runtime} (url : string) (s : State)
    (response : AxiosResponse) (w1 : World) (page : Page)
    (pre urls : list string) (h : string) (post : list string) (e : JsError) :
  axios (get_request url []) (world s) = (Resolved response, w1) ->
  cheerio_load (data response) = inr page ->
  firstn 5 (anchor_hrefs page) = (pre ++ h :: post)%list ->
  Forall2 (fun h u => new_URL h url = inr u) pre urls ->
  new_URL h url = inl e ->
  scrapeUrlAndSublinks url s =
    (inr {| content := [Text (JStr ("Error: " ++ message e))] |},
     {| world := world_after urls w1;
        requests := (requests s ++ get_request url []
                       :: map (fun u => get_request u []) urls)%list |}).
Proof.
  intros Hroot Hparse Hsplit Hpre He.
  exact (scrape_invalid url s response w1 page Hroot Hparse
           pre urls h post e Hsplit Hpre He).
Qed.

Lemma invalid_href_fails_whole_call_witness :
  Toy.site "https://example.test/bad"
  = Resolved (Toy.ok (JStr (Toy.html_of ["/p1"; "http://"; "/p3"])))
  /\ Toy.run Toy.upstream_down (scrapeUrlAndSublinks "https://example.test/bad")
     = inr {| content := [Text (JStr "Error: Invalid URL")] |}
  /\ Toy.asked Toy.upstream_down (scrapeUrlAndSublinks "https://example.test/bad")
     = ["https://example.test/bad"; "https://example.test/p1"].
Proof.
  pose proof (invalid_href_fails_whole_call
                (RT := Toy.runtime Toy.upstream_down)
                "https://example.test/bad" (Toy.start Toy.upstream_down)
                (Toy.ok (JStr (Toy.html_of Toy.hrefs_bad))) 1%nat
                (mkPage "Index" Toy.hrefs_bad)
                ["/p1"] ["https://example.test/p1"] "http://" ["/p3"]
                (Error "Invalid URL")
                eq_refl eq_refl eq_refl ltac:(repeat constructor) eq_refl)
    as Hrun.
  split; [reflexivity|]. unfold Toy.run, Toy.asked. rewrite Hrun.
  split; reflexivity.
Defined.

(** ** Wrapping of failures *)

(** A failed upload is reported under its own prefix, not as
    "Error: <message>", and a failed root fetch of the crawler is reported
    with the message of the failure even when the response carries a provider
    message. *)
Lemma failure_text_is_per_tool :
  Toy.run Toy.upstream_down (uploadAudioToR2 "UklGRg==" (Some "clip.wav") None)
  = inr {| content :=
             [Text (JStr "Error uploading to R2: Request failed with status code 500")] |}
  /\ String.prefix "Error: "
       "Error uploading to R2: Request failed with status code 500" = false
  /\ Toy.site "https://example.test/private"
     = Rejected (Toy.http_error 403 "Forbidden"
                   (Toy.cloudflare_errors "Authentication error"))
  /\ provider_message (Toy.http_error 403 "Forbidden"
                         (Toy.cloudflare_errors "Authentication error"))
     = JStr "Authentication error"
  /\ Toy.run Toy.upstream_down (scrapeUrlAndSublinks "https://example.test/private")
     = inr {| content :=
                [Text (JStr "Error: Request failed with status code 403")] |}.
Proof. repeat split; reflexivity. Qed.

(** C6, amended. No handler lets a failure escape: every call returns a
    result.  A rejected upstream call is reported as a single text:
    "Error: " followed by the best-effort message for fetchAudioAndSave and
    summarizeText; "Error uploading to R2: " followed by it for
    uploadAudioToR2; "Error retrieving from Cloudflare KV: " followed by it
    for getFromCloudflareKV, unless the response has status 404, which gives
    the not-found text; and, for scrapeUrlAndSublinks, "Error: " followed by
    the message of the failure itself when the root fetch is rejected.  The
    best-effort message is the provider's [errors[0].message] when that is
    truthy and the message of the failure otherwise, which is all there is
    when the failure carries no response. *)
Theorem handler_failures_are_wrapped {RT : Runtime} :
  (forall (call : ToolCall) (s : State),
     exists (r : ToolResult) (s' : State), run_handler call s = (inr r, s'))
  /\
  (forall (text lang : option string) (s : State) (e : JsError) (w : World),
     let req := melotts_request (with_default text "") (with_default lang "en") in
     axios req (world s) = (Rejected e, w) ->
     fetchAudioAndSave text lang s =
       (inr {| content :=
                 [Text (JStr ("Error: " ++ js_String (bestEffortMessage e)))] |},
        asked_in s req w))
  /\
  (forall (text : string) (s : State) (e : JsError) (w : World),
     axios (bart_request text) (world s) = (Rejected e, w) ->
     summarizeText text s =
       (inr {| content :=
                 [Text (JStr ("Error: " ++ js_String (bestEffortMessage e)))] |},
        asked_in s (bart_request text) w))
  /\
  (forall (url : string) (s : State) (e : JsError) (w : World),
     axios (get_request url []) (world s) = (Rejected e, w) ->
     scrapeUrlAndSublinks url s =
       (inr {| content := [Text (JStr ("Error: " ++ message e))] |},
        asked_in s (get_request url []) w))
  /\
  (forall (fileData : string) (fileName contentType : option string) (s : State)
          (e : JsError) (w : World),
     let ct := finalContentType contentType fileData in
     let req := r2_request fileData ct (chosen_name fileName (extension ct) s) in
     axios req (world (state_named fileName s)) = (Rejected e, w) ->
     uploadAudioToR2 fileData fileName contentType s =
       (inr {| content :=
                 [Text (JStr ("Error uploading to R2: "
                              ++ js_String (bestEffortMessage e)))] |},
        asked_in (state_named fileName s) req w))
  /\
  (forall (key : string) (namespaceId : option string) (s : State)
          (encodedKey : string) (e : JsError) (w : World),
     let req := kv_request (finalNamespaceId namespaceId) encodedKey in
     encodeURIComponent key = inr encodedKey ->
     axios req (world s) = (Rejected e, w) ->
     getFromCloudflareKV key namespaceId s =
       (inr {| content :=
                 [Text (JStr (if response_status_is e 404 then
                                "Key '" ++ key
                                ++ "' not found in Cloudflare KV namespace."
                              else
                                "Error retrieving from Cloudflare KV: "
                                ++ js_String (bestEffortMessage e)))] |},
        asked_in s req w))
  /\
  (forall e : JsError,
     (truthy (provider_message e) = true ->
      bestEffortMessage e = provider_message e)
     /\ (truthy (provider_message e) = false ->
         bestEffortMessage e = JStr (message e))
     /\ (response e = None ->
         js_String (bestEffortMessage e) = message e)).
Proof.
  split; [|split; [|split; [|split; [|split; [|split]]]]].
  - intros [text lang|text|url|fileData fileName contentType|key namespaceId] s;
      cbn [run_handler].
    + apply try_catch_total.
    + apply try_catch_total.
    + apply try_catch_total.
    + apply try_catch_total.
    + unfold getFromCloudflareKV, try_catch.
      match goal with
      | |- context [let (_, _) := ?c s in _] => destruct (c s) as [[e|a] s']
      end; [|eauto].
      destruct (response_status_is e 404); unfold ret; eauto.
  - intros text lang s e w req Hax. subst req.
    exact (fetchAudio_rejected text lang s e w Hax).
  - intros text s e w Hax. exact (summarize_rejected text s e w Hax).
  - intros url s e w Hax. exact (scrape_root_rejected url s e w Hax).
  - intros fileData fileName contentType s e w ct req Hax. subst ct req.
    exact (upload_rejected fileData fileName contentType s e w Hax).
  - intros key namespaceId s encodedKey e w req Henc Hax. subst req.
    rewrite (kv_rejected key namespaceId s encodedKey w Henc e Hax).
    destruct (response_status_is e 404); reflexivity.
  - intros e. split; [|split].
    + apply best_effort_provider.
    + apply best_effort_fallback.
    + apply best_effort_no_response.
Qed.

Lemma handler_failures_are_wrapped_witness :
  Toy.run Toy.forbidden (fetchAudioAndSave (Some "hello") None)
  = inr {| content := [Text (JStr "Error: Authentication error")] |}
  /\ Toy.run Toy.upstream_down (summarizeText "a long text")
     = inr {| content :=
                [Text (JStr "Error: Request failed with status code 500")] |}
  /\ Toy.run Toy.upstream_down (scrapeUrlAndSublinks "https://down.test/")
     = inr {| content := [Text (JStr "Error: getaddrinfo ENOTFOUND")] |}
  /\ Toy.run Toy.forbidden (uploadAudioToR2 "UklGRg==" (Some "clip.wav") None)
     = inr {| content :=
                [Text (JStr "Error uploading to R2: Authentication error")] |}
  /\ Toy.run Toy.forbidden (getFromCloudflareKV "missing-key" None)
     = inr {| content :=
                [Text (JStr "Error retrieving from Cloudflare KV: Authentication error")] |}.
Proof.
  set (e403 := Toy.http_error 403 "Forbidden"
                 (Toy.cloudflare_errors "Authentication error")).
  set (e500 := Toy.http_error 500 "Internal Server Error" (JStr "")).
  destruct (handler_failures_are_wrapped (RT := Toy.runtime Toy.forbidden))
    as [_ [Hf [_ [_ [Hu Hk]]]]].
  destruct Hk as [Hk _].
  destruct (handler_failures_are_wrapped (RT := Toy.runtime Toy.upstream_down))
    as [_ [_ [Hs [Hc _]]]].
  unfold Toy.run.
  split; [|split; [|split; [|split]]].
  - rewrite (Hf (Some "hello") None (Toy.start _) e403 1%nat eq_refl).
    reflexivity.
  - rewrite (Hs "a long text" (Toy.start _) e500 1%nat eq_refl).
    reflexivity.
  - rewrite (Hc "https://down.test/" (Toy.start _) Toy.network_error 1%nat
               eq_refl).
    reflexivity.
  - rewrite (Hu "UklGRg==" (Some "clip.wav") None (Toy.start _) e403 1%nat
               eq_refl).
    reflexivity.
  - rewrite (Hk "missing-key" None (Toy.start _) "missing-key" e403 1%nat
               eq_refl eq_refl).
    reflexivity.
Defined.

(** * Further properties *)

(** ** What the crawler asks for *)

Section CrawlRequests.

Context {RT : Runtime}.

Variable url : string.

Local Abbreviation fetch u := (get_request u []).

(** The loop on any links: it fetches the resolutions of some of them, in
    order, and nothing else. *)
Lemma crawl_sublinks_requests (hrefs : list string) :
  forall (d : Dict) (s : State),
  exists urls : list string,
    requests (snd (crawl_sublinks url hrefs d s))
    = (requests s ++ map (fun u => fetch u) urls)%list
    /\ length urls <= length hrefs
    /\ (forall u, In u urls -> exists h, In h hrefs /\ new_URL h url = inr u).
Proof.
  induction hrefs as [|h hrefs IH]; intros d s.
  - exists []. cbn. rewrite app_nil_r. repeat split; [lia | contradiction].
  - destruct (new_URL h url) as [e|u] eqn:Hu.
    + exists []. rewrite (crawl_step_invalid url h hrefs d s e Hu). cbn.
      rewrite app_nil_r. repeat split; [lia | contradiction].
    + rewrite (crawl_step url h hrefs d s u Hu).
      destruct (IH (obj_set d u (entry_of (fst (axios (fetch u) (world s)))))
                   (asked_in s (fetch u) (snd (axios (fetch u) (world s)))))
        as [urls [Hreq [Hlen Hfrom]]].
      exists (u :: urls). split; [|split].
      * rewrite Hreq. cbn [asked_in requests map]. now rewrite <- app_assoc.
      * cbn. lia.
      * intros k [<-|Hk].
        -- exists h. split; [now left | exact Hu].
        -- destruct (Hfrom k Hk) as [h' [Hin Hres]].
           exists h'. split; [now right | exact Hres].
Qed.

(** The whole call: the root, then resolutions of some of the first five
    links of the root page. *)
Lemma scrape_requests (s : State) :
  exists urls : list string,
    requests (snd (scrapeUrlAndSublinks url s))
    = (requests s ++ fetch url :: map (fun u => fetch u) urls)%list
    /\ length urls <= 5
    /\ (forall (e : JsError) (w : World),
          axios (fetch url) (world s) = (Rejected e, w) -> urls = [])
    /\ (forall (response : AxiosResponse) (w : World),
          axios (fetch url) (world s) = (Resolved response, w) ->
          match cheerio_load (data response) with
          | inl _ => urls = []
          | inr page =>
              forall u, In u urls ->
                exists h, In h (firstn 5 (anchor_hrefs page))
                          /\ new_URL h url = inr u
          end).
Proof.
  destruct (axios (fetch url) (world s)) as [[response|e] w] eqn:Hax.
  - destruct (cheerio_load (data response)) as [e|page] eqn:Hparse.
    + exists []. split; [|split; [|split]].
      * unfold scrapeUrlAndSublinks, try_catch. unfold bind at 1. unfold crawl.
        unfold bind at 1. rewrite (await_resolved _ _ _ _ Hax).
        unfold bind at 1. unfold lift at 1. rewrite Hparse. reflexivity.
      * cbn. lia.
      * intros e' w' [=].
      * intros r' w' [= <- <-]. now rewrite Hparse.
    + destruct (crawl_sublinks_requests (firstn 5 (anchor_hrefs page)) []
                  (asked_in s (fetch url) w)) as [urls [Hreq [Hlen Hfrom]]].
      exists urls. split; [|split; [|split]].
      * unfold scrapeUrlAndSublinks, try_catch. unfold bind at 1. unfold crawl.
        unfold bind at 1. rewrite (await_resolved _ _ _ _ Hax).
        unfold bind at 1. unfold lift at 1. rewrite Hparse.
        unfold bind at 1.
        destruct (crawl_sublinks url (firstn 5 (anchor_hrefs page)) []
                    (asked_in s (fetch url) w)) as [[e|d] s2];
          cbn [snd] in Hreq; cbn; rewrite Hreq; cbn [asked_in requests];
          now rewrite <- app_assoc.
      * rewrite length_firstn in Hlen. lia.
      * intros e' w' [=].
      * intros r' w' [= <- <-]. rewrite Hparse. exact Hfrom.
  - exists []. split; [|split; [|split]].
    + rewrite (scrape_root_rejected url s e w Hax). reflexivity.
    + cbn. lia.
    + reflexivity.
    + intros r' w' [=].
Qed.

End CrawlRequests.

(** X1. Whatever the pages hold and whatever the network answers, every
    request made by scrapeUrlAndSublinks is a plain GET: no body and no
    header, so the account's e-mail and key are never sent to a crawled
    site. *)
Theorem crawler_requests_are_bare {RT : Runtime} (url : string) (s : State) :
  exists reqs : list Request,
    requests (snd (scrapeUrlAndSublinks url s)) = (requests s ++ reqs)%list
    /\ Forall bare_get reqs.
Proof.
  destruct (scrape_requests url s) as [urls [Hreq _]].
  exists (get_request url [] :: map (fun u => get_request u []) urls).
  split; [exact Hreq|].
  constructor; [repeat split|].
  apply Forall_forall. intros r Hr. apply in_map_iff in Hr.
  destruct Hr as [u [<- _]]. repeat split.
Qed.

(** X2. One call of scrapeUrlAndSublinks fetches the root and then at most
    five more URLs, each the resolution of one of the first five [href]
    values of the root page: the pages behind the links are never followed.
    When the root fetch is rejected, or the root does not parse, nothing else
    is fetched. *)
Theorem crawl_is_bounded {RT : Runtime} (url : string) (s : State) :
  exists urls : list string,
    requests (snd (scrapeUrlAndSublinks url s))
    = (requests s ++ get_request url []
         :: map (fun u => get_request u []) urls)%list
    /\ length urls <= 5
    /\ (forall (e : JsError) (w : World),
          axios (get_request url []) (world s) = (Rejected e, w) -> urls = [])
    /\ (forall (response : AxiosResponse) (w : World),
          axios (get_request url []) (world s) = (Resolved response, w) ->
          match cheerio_load (data response) with
          | inl _ => urls = []
          | inr page =>
              forall u, In u urls ->
                exists h, In h (firstn 5 (anchor_hrefs page))
                          /\ new_URL h url = inr u
          end).
Proof. exact (scrape_requests url s). Qed.

Lemma crawl_is_bounded_witness :
  exists urls : list string,
    Toy.asked Toy.upstream_down (scrapeUrlAndSublinks "https://example.test/bad")
    = "https://example.test/bad" :: urls
    /\ length urls <= 5
    /\ forall u, In u urls ->
         exists h, In h ["/p1"; "http://"; "/p3"]
                   /\ Toy.toy_new_URL h "https://example.test/bad" = inr u.
Proof.
  destruct (crawl_is_bounded (RT := Toy.runtime Toy.upstream_down)
              "https://example.test/bad" (Toy.start Toy.upstream_down))
    as [urls [Hreq [Hlen [_ Hfrom]]]].
  exists urls. split; [|split].
  - unfold Toy.asked. rewrite Hreq. cbn [Toy.start requests app map req_url get_request].
    f_equal. rewrite map_map. cbn [req_url get_request]. apply map_id.
  - exact Hlen.
  - exact (Hfrom (Toy.ok (JStr (Toy.html_of Toy.hrefs_bad))) 1%nat eq_refl).
Defined.

(** X3. A root page without anchors: only the root is fetched and the call
    returns the resource with the root's text and an empty mapping. *)
Theorem page_without_links {RT : Runtime} (url : string) (s : State)
    (response : AxiosResponse) (w1 : World) (page : Page) :
  axios (get_request url []) (world s) = (Resolved response, w1) ->
  cheerio_load (data response) = inr page ->
  anchor_hrefs page = [] ->
  scrapeUrlAndSublinks url s =
    (inr {| content :=
              [Resource
                 {| res_uri := url;
                    res_blob := None;
                    res_text :=
                      Some (JSON_stringify
                              (JObj [("main_url", JStr url);
                                     ("main_text", JStr (trim (body_text page)));
                                     ("sublinks", JObj [])]));
                    res_mimeType := None |}] |},
     asked_in s (get_request url []) w1).
Proof.
  intros Hroot Hparse Hnone.
  assert (Hres : Forall2 (fun h u => new_URL h url = inr u)
                   (firstn 5 (anchor_hrefs page)) []).
  { rewrite Hnone. constructor. }
  rewrite (scrape_run url s response w1 page Hroot Hparse [] Hres).
  reflexivity.
Qed.

Lemma page_without_links_witness :
  Toy.run Toy.upstream_down (scrapeUrlAndSublinks "https://example.test/p1")
  = inr {| content :=
             [Resource
                {| res_uri := "https://example.test/p1";
                   res_blob := None;
                   res_text :=
                     Some (JStr (Toy.toy_stringify
                                   (JObj [("main_url", JStr "https://example.test/p1");
                                          ("main_text", JStr "Page one");
                                          ("sublinks", JObj [])])));
                   res_mimeType := None |}] |}
  /\ Toy.asked Toy.upstream_down (scrapeUrlAndSublinks "https://example.test/p1")
     = ["https://example.test/p1"].
Proof.
  pose proof (page_without_links (RT := Toy.runtime Toy.upstream_down)
                "https://example.test/p1" (Toy.start Toy.upstream_down)
                (Toy.ok (JStr (Toy.html_leaf "Page one"))) 1%nat
                (mkPage "Page one" []) eq_refl eq_refl eq_refl) as Hrun.
  unfold Toy.run, Toy.asked. rewrite Hrun. split; reflexivity.
Defined.

(** ** Order of the keys *)

Section KeyOrder.

Lemma filter_remove_hidden (P : string -> bool) (k : string) (l : list string) :
  P k = false -> filter P (remove string_dec k l) = filter P l.
Proof.
  intros Hk. induction l as [|x l IH]; [reflexivity|].
  cbn [remove filter]. destruct (string_dec k x) as [<-|Hne].
  - now rewrite Hk.
  - cbn [filter]. now rewrite IH.
Qed.

Lemma filter_after_new (seen : list string) (k : string) (l : list string) :
  filter (unseen (seen ++ [k])) l
  = filter (unseen seen) (remove string_dec k l).
Proof.
  induction l as [|x l IH]; [reflexivity|].
  cbn [remove filter]. destruct (string_dec k x) as [<-|Hne].
  - unfold unseen at 1.
    destruct (in_dec string_dec k (seen ++ [k])) as [_|Hn]; [exact IH|].
    exfalso. apply Hn, in_or_app. right. now left.
  - cbn [filter]. rewrite IH.
    replace (unseen (seen ++ [k]) x) with (unseen seen x); [reflexivity|].
    unfold unseen.
    destruct (in_dec string_dec x seen) as [Hin|Hnin];
      destruct (in_dec string_dec x (seen ++ [k])) as [Hin'|Hnin'];
      try reflexivity.
    + exfalso. apply Hnin', in_or_app. now left.
    + exfalso. apply in_app_or in Hin'. destruct Hin' as [H|[H|[]]]; auto.
Qed.

Lemma filter_unseen_nil (l : list string) : filter (unseen []) l = l.
Proof.
  induction l as [|x l IH]; [reflexivity|]. cbn. now rewrite IH.
Qed.

(** New keys are appended at their first assignment; assignments to a key
    already present do not move it. *)
Lemma set_all_keys_order (kvs : list (string * string)) : forall o : Dict,
  obj_keys (set_all o kvs)
  = (obj_keys o
       ++ filter (unseen (obj_keys o)) (first_occurrences (map fst kvs)))%list.
Proof.
  induction kvs as [|[k v] kvs IH]; intros o.
  - cbn. now rewrite app_nil_r.
  - rewrite set_all_cons, IH. cbn [map fst first_occurrences filter].
    destruct (in_dec string_dec k (obj_keys o)) as [Hin|Hnin].
    + rewrite (obj_keys_set_old o k v Hin).
      assert (Hk : unseen (obj_keys o) k = false).
      { unfold unseen. destruct (in_dec string_dec k (obj_keys o)); tauto. }
      rewrite Hk. now rewrite (filter_remove_hidden _ k _ Hk).
    + rewrite (obj_keys_set_new o k v Hnin).
      assert (Hk : unseen (obj_keys o) k = true).
      { unfold unseen. destruct (in_dec string_dec k (obj_keys o)); tauto. }
      rewrite Hk, filter_after_new, <- app_assoc. reflexivity.
Qed.

End KeyOrder.

(** X4. For a root that was fetched and whose first five links resolve, the
    keys of the returned mapping are the resolved URLs in the order of their
    first occurrence among the links: a repeated target does not add a key
    and does not move the one it has. *)
Theorem keys_follow_first_occurrence {RT : Runtime} (url : string) (s : State)
    (response : AxiosResponse) (w1 : World) (page : Page) (urls : list string) :
  axios (get_request url []) (world s) = (Resolved response, w1) ->
  cheerio_load (data response) = inr page ->
  Forall2 (fun h u => new_URL h url = inr u)
          (firstn 5 (anchor_hrefs page)) urls ->
  exists (c : CrawlResult) (s' : State),
    crawl url s = (inr c, s')
    /\ obj_keys (sublinks c) = first_occurrences urls.
Proof.
  intros Hroot Hparse Hres.
  eexists. eexists. split.
  - exact (crawl_run url s response w1 page Hroot Hparse urls Hres).
  - cbn [sublinks]. rewrite set_all_keys_order, assigned_keys.
    cbn [obj_keys map app]. apply filter_unseen_nil.
Qed.

Lemma keys_follow_first_occurrence_witness :
  exists c : CrawlResult,
    Toy.run Toy.upstream_down (crawl "https://example.test/same") = inr c
    /\ obj_keys (sublinks c) = ["https://example.test/p1"].
Proof.
  destruct (keys_follow_first_occurrence (RT := Toy.runtime Toy.upstream_down)
              "https://example.test/same" (Toy.start Toy.upstream_down)
              (Toy.ok (JStr (Toy.html_of Toy.hrefs_same))) 1%nat
              (mkPage "Index" Toy.hrefs_same)
              ["https://example.test/p1"; "https://example.test/p1";
               "https://example.test/p1"; "https://example.test/p1";
               "https://example.test/p1"]
              eq_refl eq_refl ltac:(repeat constructor))
    as [c [s' [Hrun Hkeys]]].
  exists c. split.
  - unfold Toy.run. rewrite Hrun. reflexivity.
  - rewrite Hkeys. reflexivity.
Defined.

(** ** The calls to the provider *)

Section Provider.

Context {RT : Runtime}.

Lemma state_named_requests (fileName : option string) (s : State) :
  requests (state_named fileName s) = requests s.
Proof. unfold state_named. destruct (truthy (of_optional fileName)); reflexivity. Qed.

(** A key that cannot be encoded: the [catch] clause answers and nothing is
    asked. *)
Lemma kv_unencodable (key : string) (namespaceId : option string) (s : State)
    (e : JsError) :
  encodeURIComponent key = inl e ->
  getFromCloudflareKV key namespaceId s =
    (inr (if response_status_is e 404 then kv_not_found key
          else text_result ("Error retrieving from Cloudflare KV: "
                            ++ js_String (bestEffortMessage e))),
     s).
Proof.
  intros Henc. unfold getFromCloudflareKV, try_catch, bind, lift.
  rewrite Henc. destruct (response_status_is e 404); reflexivity.
Qed.

Lemma fetchAudio_requests (text lang : option string) (s : State) :
  requests (snd (fetchAudioAndSave text lang s))
  = (requests s
       ++ [melotts_request (with_default text "") (with_default lang "en")])%list.
Proof.
  destruct (axios (melotts_request (with_default text "") (with_default lang "en"))
                  (world s)) as [[r|e] w] eqn:Hax.
  - rewrite (fetchAudio_resolved text lang s r w Hax).
    destruct (status r =? 200)%Z; [|reflexivity]. cbv zeta.
    destruct (truthy (get_prop (get_prop (data r) "result") "audio"));
      reflexivity.
  - rewrite (fetchAudio_rejected text lang s e w Hax). reflexivity.
Qed.

Lemma summarize_requests (text : string) (s : State) :
  requests (snd (summarizeText text s)) = (requests s ++ [bart_request text])%list.
Proof.
  destruct (axios (bart_request text) (world s)) as [[r|e] w] eqn:Hax.
  - rewrite (summarize_resolved text s r w Hax). reflexivity.
  - rewrite (summarize_rejected text s e w Hax). reflexivity.
Qed.

Lemma upload_requests (fileData : string) (fileName contentType : option string)
    (s : State) :
  let ct := finalContentType contentType fileData in
  requests (snd (uploadAudioToR2 fileData fileName contentType s))
  = (requests s
       ++ [r2_request fileData ct (chosen_name fileName (extension ct) s)])%list.
Proof.
  intros ct. subst ct.
  destruct (axios (r2_request fileData (finalContentType contentType fileData)
                     (chosen_name fileName
                        (extension (finalContentType contentType fileData)) s))
                  (world (state_named fileName s))) as [[r|e] w] eqn:Hax.
  - rewrite (upload_resolved fileData fileName contentType s r w Hax).
    cbn [snd asked_in requests]. now rewrite state_named_requests.
  - rewrite (upload_rejected fileData fileName contentType s e w Hax).
    cbn [snd asked_in requests]. now rewrite state_named_requests.
Qed.

Lemma kv_requests (key : string) (namespaceId : option string) (s : State) :
  requests (snd (getFromCloudflareKV key namespaceId s))
  = match encodeURIComponent key with
    | inr encodedKey =>
        (requests s ++ [kv_request (finalNamespaceId namespaceId) encodedKey])%list
    | inl _ => requests s
    end.
Proof.
  destruct (encodeURIComponent key) as [e|encodedKey] eqn:Henc.
  - rewrite (kv_unencodable key namespaceId s e Henc). reflexivity.
  - destruct (axios (kv_request (finalNamespaceId namespaceId) encodedKey)
                    (world s)) as [[r|e] w] eqn:Hax.
    + rewrite (kv_resolved key namespaceId s encodedKey w Henc r Hax).
      reflexivity.
    + rewrite (kv_rejected key namespaceId s encodedKey w Henc e Hax).
      reflexivity.
Qed.

Lemma melotts_authenticated (text lang : string) :
  authenticated (melotts_request text lang).
Proof. repeat split. apply prefix_app. Qed.

Lemma bart_authenticated (text : string) : authenticated (bart_request text).
Proof. repeat split. apply prefix_app. Qed.

Lemma r2_authenticated (fileData ct name : string) :
  authenticated (r2_request fileData ct name).
Proof. repeat split. apply prefix_app. Qed.

Lemma kv_authenticated (ns encodedKey : string) :
  authenticated (kv_request ns encodedKey).
Proof. repeat split. apply prefix_app. Qed.

End Provider.

(** X5. fetchAudioAndSave, summarizeText and uploadAudioToR2 make exactly one
    request per call whatever the answer (no retry, and no call without a
    request); getFromCloudflareKV makes exactly one when its key can be
    encoded and none otherwise. *)
Theorem one_request_per_call {RT : Runtime} :
  (forall (text lang : option string) (s : State),
     requests (snd (fetchAudioAndSave text lang s))
     = (requests s
          ++ [melotts_request (with_default text "") (with_default lang "en")])%list)
  /\
  (forall (text : string) (s : State),
     requests (snd (summarizeText text s))
     = (requests s ++ [bart_request text])%list)
  /\
  (forall (fileData : string) (fileName contentType : option string) (s : State),
     requests (snd (uploadAudioToR2 fileData fileName contentType s))
     = (requests s
          ++ [r2_request fileData (finalContentType contentType fileData)
                (chosen_name fileName
                   (extension (finalContentType contentType fileData)) s)])%list)
  /\
  (forall (key : string) (namespaceId : option string) (s : State),
     requests (snd (getFromCloudflareKV key namespaceId s))
     = match encodeURIComponent key with
       | inr encodedKey =>
           (requests s
              ++ [kv_request (finalNamespaceId namespaceId) encodedKey])%list
       | inl _ => requests s
       end).
Proof.
  split; [|split; [|split]].
  - exact fetchAudio_requests.
  - exact summarize_requests.
  - exact upload_requests.
  - exact kv_requests.
Qed.

(** X6. Every request made by a handler other than the crawler goes to the
    provider's API under [https://api.cloudflare.com/client/v4/accounts/]
    and carries the configured e-mail and key. *)
Theorem provider_requests_are_authenticated {RT : Runtime}
    (call : ToolCall) (s : State) :
  (forall url, call <> Call_scrapeUrlAndSublinks url) ->
  exists reqs : list Request,
    requests (snd (run_handler call s)) = (requests s ++ reqs)%list
    /\ Forall authenticated reqs.
Proof.
  intros Hcall.
  destruct call as [text lang|text|url|fileData fileName contentType|key namespaceId];
    cbn [run_handler].
  - eexists. split; [apply fetchAudio_requests|].
    constructor; [apply melotts_authenticated | constructor].
  - eexists. split; [apply summarize_requests|].
    constructor; [apply bart_authenticated | constructor].
  - exfalso. exact (Hcall url eq_refl).
  - eexists. split; [apply upload_requests|].
    constructor; [apply r2_authenticated | constructor].
  - rewrite kv_requests. destruct (encodeURIComponent key) as [e|encodedKey].
    + exists []. split; [now rewrite app_nil_r | constructor].
    + eexists. split; [reflexivity|].
      constructor; [apply kv_authenticated | constructor].
Qed.

Lemma provider_requests_are_authenticated_witness :
  exists reqs : list Request,
    requests (snd (run_handler (RT := Toy.runtime Toy.kv_missing)
                     (Call_getFromCloudflareKV "missing-key" None)
                     (Toy.start Toy.kv_missing)))
    = reqs
    /\ Forall (authenticated (RT := Toy.runtime Toy.kv_missing)) reqs
    /\ map req_url reqs
       = ["https://api.cloudflare.com/client/v4/accounts/account/storage/kv/namespaces/your-namespace-id/values/missing-key"].
Proof.
  destruct (provider_requests_are_authenticated
              (RT := Toy.runtime Toy.kv_missing)
              (Call_getFromCloudflareKV "missing-key" None)
              (Toy.start Toy.kv_missing) ltac:(discriminate))
    as [reqs [Hreq Hauth]].
  exists reqs. split; [exact Hreq|]. split; [exact Hauth|].
  cbn [app Toy.start requests] in Hreq. rewrite <- Hreq. reflexivity.
Defined.

(** X7. Every call returns one or two content items: a single text, a text
    followed by a resource, or (for the crawler only) a single resource.  No
    handler returns an empty result. *)
Theorem results_have_one_or_two_items {RT : Runtime} (call : ToolCall) (s : State) :
  exists (r : ToolResult) (s' : State),
    run_handler call s = (inr r, s')
    /\ ((exists t, content r = [Text t])
        \/ (exists t rd, content r = [Text t; Resource rd])
        \/ (exists rd url,
              content r = [Resource rd]
              /\ call = Call_scrapeUrlAndSublinks url)).
Proof.
  destruct call as [text lang|text|url|fileData fileName contentType|key namespaceId];
    cbn [run_handler].
  - destruct (axios (melotts_request (with_default text "") (with_default lang "en"))
                    (world s)) as [[r|e] w] eqn:Hax.
    + rewrite (fetchAudio_resolved text lang s r w Hax).
      destruct (status r =? 200)%Z; [|eexists; eexists; split;
                                       [reflexivity | left; eexists; reflexivity]].
      cbv zeta.
      destruct (truthy (get_prop (get_prop (data r) "result") "audio")).
      * eexists. eexists. split; [reflexivity|].
        right. left. eexists. eexists. reflexivity.
      * eexists. eexists. split; [reflexivity|]. left. eexists. reflexivity.
    + rewrite (fetchAudio_rejected text lang s e w Hax).
      eexists. eexists. split; [reflexivity|]. left. eexists. reflexivity.
  - destruct (axios (bart_request text) (world s)) as [[r|e] w] eqn:Hax.
    + rewrite (summarize_resolved text s r w Hax).
      eexists. eexists. split; [reflexivity|]. left.
      destruct (status r =? 200)%Z; [|eexists; reflexivity]. cbv zeta.
      destruct (truthy (get_prop (get_prop (data r) "result") "summary"));
        eexists; reflexivity.
    + rewrite (summarize_rejected text s e w Hax).
      eexists. eexists. split; [reflexivity|]. left. eexists. reflexivity.
  - unfold scrapeUrlAndSublinks, try_catch, bind.
    destruct (crawl url s) as [[e|c] s'].
    + eexists. eexists. split; [reflexivity|]. left. eexists. reflexivity.
    + eexists. eexists. split; [reflexivity|].
      right. right. eexists. exists url. split; reflexivity.
  - destruct (axios (r2_request fileData (finalContentType contentType fileData)
                       (chosen_name fileName
                          (extension (finalContentType contentType fileData)) s))
                    (world (state_named fileName s))) as [[r|e] w] eqn:Hax.
    + rewrite (upload_resolved fileData fileName contentType s r w Hax).
      eexists. eexists. split; [reflexivity|].
      destruct ((status r =? 200) || (status r =? 201))%Z.
      * right. left. eexists. eexists. reflexivity.
      * left. eexists. reflexivity.
    + rewrite (upload_rejected fileData fileName contentType s e w Hax).
      eexists. eexists. split; [reflexivity|]. left. eexists. reflexivity.
  - destruct (encodeURIComponent key) as [e|encodedKey] eqn:Henc.
    + rewrite (kv_unencodable key namespaceId s e Henc).
      eexists. eexists. split; [reflexivity|]. left.
      destruct (response_status_is e 404); eexists; reflexivity.
    + destruct (axios (kv_request (finalNamespaceId namespaceId) encodedKey)
                      (world s)) as [[r|e] w] eqn:Hax.
      * rewrite (kv_resolved key namespaceId s encodedKey w Henc r Hax).
        eexists. eexists. split; [reflexivity|].
        destruct (status r =? 200)%Z.
        -- right. left. eexists. eexists. reflexivity.
        -- left. destruct (status r =? 404)%Z; eexists; reflexivity.
      * rewrite (kv_rejected key namespaceId s encodedKey w Henc e Hax).
        eexists. eexists. split; [reflexivity|]. left.
        destruct (response_status_is e 404); eexists; reflexivity.
Qed.

(** ** Optional arguments *)

(** X8. An empty string given for [fileName], [contentType] or
    [namespaceId] behaves exactly as the argument left out, because these are
    defaulted with [||] or tested with [!]; an empty [text] is what the
    default is anyway.  An empty [lang] is not replaced: its default applies
    to a missing argument only, and the request carries the empty string. *)
Theorem empty_strings_as_arguments {RT : Runtime} :
  (forall (fileData : string) (contentType : option string) (s : State),
     uploadAudioToR2 fileData (Some "") contentType s
     = uploadAudioToR2 fileData None contentType s)
  /\
  (forall (fileData : string) (fileName : option string) (s : State),
     uploadAudioToR2 fileData fileName (Some "") s
     = uploadAudioToR2 fileData fileName None s)
  /\
  (forall (key : string) (s : State),
     getFromCloudflareKV key (Some "") s = getFromCloudflareKV key None s)
  /\
  (forall (lang : option string) (s : State),
     fetchAudioAndSave (Some "") lang s = fetchAudioAndSave None lang s)
  /\
  (forall (text : option string) (s : State),
     requests (snd (fetchAudioAndSave text (Some "") s))
     = (requests s ++ [melotts_request (with_default text "") ""])%list
     /\ melotts_request (with_default text "") ""
        <> melotts_request (with_default text "") "en").
Proof.
  split; [|split; [|split; [|split]]]; try reflexivity.
  intros text s. split.
  - exact (fetchAudio_requests text (Some "") s).
  - unfold melotts_request, post_request. intros [=].
Qed.

(** ** uploadAudioToR2 *)

Lemma truthy_nonempty (c : string) : c <> "" -> truthy (JStr c) = true.
Proof. intros Hc. cbn. apply String.eqb_neq in Hc. now rewrite Hc. Qed.

(** X9. A declared, non-empty content type is kept as it is, whatever the
    payload starts with: it is the [Content-Type] of the request and the
    [mimeType] of the resource.  Only the extension of a generated name
    depends on it: "wav" when the type contains "wav", "mp3" for every other
    type. *)
Theorem declared_type_is_kept {RT : Runtime} (fileData : string)
    (fileName : option string) (c : string) (s : State) :
  c <> "" ->
  let ext := if includes c "wav" then "wav" else "mp3" in
  let req := r2_request fileData c (chosen_name fileName ext s) in
  requests (snd (uploadAudioToR2 fileData fileName (Some c) s))
  = (requests s ++ [req])%list
  /\ assoc "Content-Type" (req_headers req) = Some c
  /\ (forall (r : AxiosResponse) (w : World),
        axios req (world (state_named fileName s)) = (Resolved r, w) ->
        status r = 200%Z \/ status r = 201%Z ->
        map res_mimeType
            (resources (returned (uploadAudioToR2 fileData fileName (Some c) s)))
        = [Some c]).
Proof.
  intros Hc ext req. subst ext req.
  assert (Hct : finalContentType (Some c) fileData = c).
  { unfold finalContentType. cbn [of_optional]. now rewrite (truthy_nonempty c Hc). }
  split; [|split].
  - pose proof (upload_requests fileData fileName (Some c) s) as H.
    cbv zeta in H. rewrite Hct in H. exact H.
  - reflexivity.
  - intros r w Hax Hst.
    pose proof (upload_resolved fileData fileName (Some c) s r w) as H.
    rewrite Hct in H. unfold extension in H. rewrite (H Hax).
    unfold returned. cbn [fst].
    destruct Hst as [-> | ->]; reflexivity.
Qed.

Lemma declared_type_is_kept_witness :
  map req_headers
      (requests (snd (uploadAudioToR2 (RT := Toy.runtime Toy.created)
                        "UklGRg==" None (Some "audio/ogg")
                        (Toy.start Toy.created))))
  = [[("Content-Type", "audio/ogg");
      ("X-Auth-Email", "ops@example.test");
      ("X-Auth-Key", "key");
      ("Content-Length", "4")]]
  /\ map res_mimeType
         (resources (returned (uploadAudioToR2 (RT := Toy.runtime Toy.created)
                                 "UklGRg==" None (Some "audio/ogg")
                                 (Toy.start Toy.created))))
     = [Some "audio/ogg"]
  /\ map res_uri
         (resources (returned (uploadAudioToR2 (RT := Toy.runtime Toy.created)
                                 "UklGRg==" None (Some "audio/ogg")
                                 (Toy.start Toy.created))))
     = [R2_URL ++ "/audio-1b4e28ba-2fa1-4d3b-a3f5-ef19b5a7633b.mp3"].
Proof.
  destruct (declared_type_is_kept (RT := Toy.runtime Toy.created)
              "UklGRg==" None "audio/ogg" (Toy.start Toy.created)
              ltac:(discriminate)) as [Hreq [_ Hmime]].
  split; [|split].
  - rewrite Hreq. reflexivity.
  - exact (Hmime {| status := 201; statusText := "Created"; data := JObj [] |}
             2%nat eq_refl (or_intror eq_refl)).
  - reflexivity.
Defined.

(** X10. The object reported is the object written: after a successful
    upload the public URL ends in the very name that ends the URL of the PUT.
    A non-empty [fileName] is that name, unchanged and unencoded, and then no
    identifier is drawn; otherwise the name is "audio-", a fresh identifier,
    a dot and the extension. *)
Theorem reported_object_is_the_one_written {RT : Runtime} (fileData : string)
    (fileName contentType : option string) (s : State)
    (r : AxiosResponse) (w : World) :
  let ct := finalContentType contentType fileData in
  let name := chosen_name fileName (extension ct) s in
  axios (r2_request fileData ct name) (world (state_named fileName s))
    = (Resolved r, w) ->
  status r = 200%Z \/ status r = 201%Z ->
  map req_url (requests (snd (uploadAudioToR2 fileData fileName contentType s)))
  = (map req_url (requests s)
       ++ [("https://api.cloudflare.com/client/v4/accounts/"
            ++ CLOUDFLARE_ACCOUNT_ID ++ "/r2/buckets/uploads/objects/"
            ++ name)%string])%list
  /\ map res_uri
         (resources (returned (uploadAudioToR2 fileData fileName contentType s)))
     = [R2_URL ++ "/" ++ name]
  /\ (forall f, fileName = Some f -> f <> "" ->
        name = f /\ state_named fileName s = s)
  /\ (fileName = None \/ fileName = Some "" ->
        name = "audio-" ++ fst (uuid_v4 (world s)) ++ "." ++ extension ct
        /\ (extension ct = "wav" \/ extension ct = "mp3")).
Proof.
  intros ct name Hax Hst. subst ct name.
  split; [|split; [|split]].
  - pose proof (upload_requests fileData fileName contentType s) as H.
    cbv zeta in H. rewrite H, map_app. reflexivity.
  - rewrite (upload_resolved fileData fileName contentType s r w Hax).
    unfold returned. cbn [fst]. destruct Hst as [-> | ->]; reflexivity.
  - intros f -> Hf. unfold chosen_name, state_named. cbn [of_optional].
    rewrite (truthy_nonempty f Hf). split; reflexivity.
  - intros Hnone. split.
    + unfold chosen_name. destruct Hnone as [-> | ->]; reflexivity.
    + unfold extension.
      destruct (includes (finalContentType contentType fileData) "wav"); auto.
Qed.

Lemma reported_object_is_the_one_written_witness :
  map req_url (requests (snd (uploadAudioToR2 (RT := Toy.runtime Toy.created)
                                "UklGRg==" (Some "clip.wav") None
                                (Toy.start Toy.created))))
  = ["https://api.cloudflare.com/client/v4/accounts/account/r2/buckets/uploads/objects/clip.wav"]
  /\ map res_uri
         (resources (returned (uploadAudioToR2 (RT := Toy.runtime Toy.created)
                                 "UklGRg==" (Some "clip.wav") None
                                 (Toy.start Toy.created))))
     = [R2_URL ++ "/clip.wav"].
Proof.
  destruct (reported_object_is_the_one_written (RT := Toy.runtime Toy.created)
              "UklGRg==" (Some "clip.wav") None (Toy.start Toy.created)
              {| status := 201; statusText := "Created"; data := JObj [] |}
              1%nat eq_refl (or_intror eq_refl)) as [Hurl [Huri _]].
  split.
  - rewrite Hurl. reflexivity.
  - rewrite Huri. reflexivity.
Defined.

(** ** getFromCloudflareKV *)

(** X11. A key that [encodeURIComponent] refuses never reaches the network:
    the call makes no request, leaves the state as it was, and returns the
    single text "Error retrieving from Cloudflare KV: " followed by the
    message of the error. *)
Theorem unencodable_key_makes_no_request {RT : Runtime} (key : string)
    (namespaceId : option string) (s : State) (e : JsError) :
  encodeURIComponent key = inl e ->
  response e = None ->
  getFromCloudflareKV key namespaceId s =
    (inr {| content :=
              [Text (JStr ("Error retrieving from Cloudflare KV: "
                           ++ message e))] |},
     s).
Proof.
  intros Henc Hnone. rewrite (kv_unencodable key namespaceId s e Henc).
  unfold response_status_is. rewrite Hnone.
  now rewrite (best_effort_no_response e Hnone).
Qed.

Lemma unencodable_key_makes_no_request_witness :
  getFromCloudflareKV (RT := Strict.runtime Toy.kv_missing)
    ("user-" ++ Strict.lone_surrogate) None (Strict.start Toy.kv_missing)
  = (inr {| content :=
              [Text (JStr "Error retrieving from Cloudflare KV: URI malformed")] |},
     Strict.start Toy.kv_missing).
Proof.
  exact (unencodable_key_makes_no_request (RT := Strict.runtime Toy.kv_missing)
           ("user-" ++ Strict.lone_surrogate) None (Strict.start Toy.kv_missing)
           (Error "URI malformed") eq_refl eq_refl).
Defined.

(** X12. A value stored as a string comes back as it is, the empty string
    included (no truthiness test on this path): the text item quotes the key
    and the value, and the resource holds the value under the URI
    [kv://<namespace>/<key>], built from the key as given while the request
    uses the encoded key. *)
Theorem stored_string_is_returned {RT : Runtime} (key : string)
    (namespaceId : option string) (s : State) (encodedKey : string)
    (r : AxiosResponse) (w : World) (v : string) :
  encodeURIComponent key = inr encodedKey ->
  axios (kv_request (finalNamespaceId namespaceId) encodedKey) (world s)
    = (Resolved r, w) ->
  status r = 200%Z ->
  data r = JStr v ->
  getFromCloudflareKV key namespaceId s =
    (inr {| content :=
              [Text (JStr ("Successfully retrieved value from Cloudflare KV."
                           ++ LF ++ "Key: " ++ key ++ LF ++ "Value: " ++ v));
               Resource
                 {| res_uri := "kv://" ++ finalNamespaceId namespaceId
                               ++ "/" ++ key;
                    res_blob := None;
                    res_text := Some (JStr v);
                    res_mimeType := Some "text/plain" |}] |},
     asked_in s (kv_request (finalNamespaceId namespaceId) encodedKey) w).
Proof.
  intros Henc Hax H200 Hdata.
  rewrite (kv_resolved key namespaceId s encodedKey w Henc r Hax).
  rewrite H200, Hdata. reflexivity.
Qed.

Lemma stored_string_is_returned_witness :
  Toy.run (Resolved (Toy.ok (JStr ""))) (getFromCloudflareKV "flag" (Some "ns1"))
  = inr {| content :=
             [Text (JStr ("Successfully retrieved value from Cloudflare KV."
                          ++ LF ++ "Key: flag" ++ LF ++ "Value: "));
              Resource
                {| res_uri := "kv://ns1/flag";
                   res_blob := None;
                   res_text := Some (JStr "");
                   res_mimeType := Some "text/plain" |}] |}.
Proof.
  unfold Toy.run.
  rewrite (stored_string_is_returned (RT := Toy.runtime (Resolved (Toy.ok (JStr ""))))
             "flag" (Some "ns1") (Toy.start _) "flag" (Toy.ok (JStr "")) 1%nat ""
             eq_refl eq_refl eq_refl eq_refl).
  reflexivity.
Defined.

(** ** Successful inference *)

(** X13. A summary is handed on as it came: with status 200 and a truthy
    [result.summary], summarizeText returns that value as its only item,
    untouched. *)
Theorem summary_is_returned_as_is {RT : Runtime} (text : string) (s : State)
    (r : AxiosResponse) (w : World) :
  axios (bart_request text) (world s) = (Resolved r, w) ->
  status r = 200%Z ->
  truthy (get_prop (get_prop (data r) "result") "summary") = true ->
  summarizeText text s =
    (inr {| content :=
              [Text (get_prop (get_prop (data r) "result") "summary")] |},
     asked_in s (bart_request text) w).
Proof.
  intros Hax H200 Hsum.
  rewrite (summarize_resolved text s r w Hax), H200. cbv zeta.
  now rewrite Hsum.
Qed.

Lemma summary_is_returned_as_is_witness :
  Toy.run (Resolved (Toy.ok (JObj [("result", JObj [("summary", JStr "Short.")])])))
    (summarizeText "a long text")
  = inr {| content := [Text (JStr "Short.")] |}.
Proof.
  unfold Toy.run.
  rewrite (summary_is_returned_as_is
             (RT := Toy.runtime
                      (Resolved (Toy.ok (JObj [("result",
                                                JObj [("summary", JStr "Short.")])]))))
             "a long text" (Toy.start _)
             (Toy.ok (JObj [("result", JObj [("summary", JStr "Short.")])]))
             1%nat eq_refl eq_refl eq_refl).
  reflexivity.
Defined.

(** X14. The speech resource embeds its own payload: for a non-empty base64
    string in [result.audio], the URI is "data:audio/mp3;base64," followed by
    that string, the blob is that string, and the type is "audio/mp3"
    whatever the payload starts with.  The identifier in the text item is
    drawn after the response has arrived. *)
Theorem speech_uri_embeds_payload {RT : Runtime} (text lang : option string)
    (s : State) (r : AxiosResponse) (w : World) (a : string) :
  let req := melotts_request (with_default text "") (with_default lang "en") in
  axios req (world s) = (Resolved r, w) ->
  status r = 200%Z ->
  get_prop (get_prop (data r) "result") "audio" = JStr a ->
  a <> "" ->
  fetchAudioAndSave text lang s =
    (inr {| content :=
              [Text (JStr ("Generated audio ID: " ++ fst (uuid_v4 w)));
               Resource
                 {| res_uri := "data:audio/mp3;base64," ++ a;
                    res_blob := Some (JStr a);
                    res_text := None;
                    res_mimeType := Some "audio/mp3" |}] |},
     {| world := snd (uuid_v4 w); requests := (requests s ++ [req])%list |}).
Proof.
  intros req Hax H200 Haudio Ha. subst req.
  rewrite (fetchAudio_resolved text lang s r w Hax), H200. cbv zeta.
  rewrite Haudio, (truthy_nonempty a Ha). reflexivity.
Qed.

Lemma speech_uri_embeds_payload_witness :
  Toy.run (Toy.spoken "UklGRg==") (fetchAudioAndSave (Some "hello") None)
  = inr {| content :=
             [Text (JStr "Generated audio ID: 1b4e28ba-2fa1-4d3b-a3f5-ef19b5a7633b");
              Resource
                {| res_uri := "data:audio/mp3;base64,UklGRg==";
                   res_blob := Some (JStr "UklGRg==");
                   res_text := None;
                   res_mimeType := Some "audio/mp3" |}] |}.
Proof.
  unfold Toy.run.
  rewrite (speech_uri_embeds_payload (RT := Toy.runtime (Toy.spoken "UklGRg=="))
             (Some "hello") None (Toy.start _)
             (Toy.ok (JObj [("result", JObj [("audio", JStr "UklGRg==")]);
                            ("success", JBool true)]))
             1%nat "UklGRg==" eq_refl eq_refl eq_refl ltac:(discriminate)).
  reflexivity.
Defined.

(** ** The provider's message *)

(** X15. Of the errors listed in a failed response only the first is read:
    when its [message] is a non-empty string, that string is the best-effort
    message, whatever follows in the list.  With an empty list, or an empty
    message, the message of the failure itself is used. *)
Theorem first_provider_error_is_reported (e : JsError) (r : AxiosResponse) :
  response e = Some r ->
  (forall (fields : list (string * JsValue)) (others : list JsValue) (m : string),
     get_prop (data r) "errors" = JArr (JObj fields :: others) ->
     assoc "message" fields = Some (JStr m) ->
     m <> "" ->
     js_String (bestEffortMessage e) = m)
  /\ (get_prop (data r) "errors" = JArr [] ->
      js_String (bestEffortMessage e) = message e)
  /\ (forall (fields : list (string * JsValue)) (others : list JsValue),
        get_prop (data r) "errors" = JArr (JObj fields :: others) ->
        assoc "message" fields = Some (JStr "") ->
        js_String (bestEffortMessage e) = message e).
Proof.
  intros Hr. unfold bestEffortMessage, provider_message, js_or. rewrite Hr.
  split; [|split].
  - intros fields others m -> Hm Hne. cbn [get_index0 get_prop]. rewrite Hm.
    now rewrite (truthy_nonempty m Hne).
  - intros ->. reflexivity.
  - intros fields others -> Hm. cbn [get_index0 get_prop]. now rewrite Hm.
Qed.

Lemma first_provider_error_is_reported_witness :
  js_String
    (bestEffortMessage
       (Toy.http_error 400 "Bad Request"
          (JObj [("errors",
                  JArr [JObj [("code", JNum 5006); ("message", JStr "Missing prompt")];
                        JObj [("code", JNum 7000); ("message", JStr "No route")]])])))
  = "Missing prompt".
Proof.
  set (body := JObj [("errors",
                  JArr [JObj [("code", JNum 5006); ("message", JStr "Missing prompt")];
                        JObj [("code", JNum 7000); ("message", JStr "No route")]])]).
  destruct (first_provider_error_is_reported
              (Toy.http_error 400 "Bad Request" body)
              {| status := 400; statusText := "Bad Request"; data := body |}
              eq_refl) as [Hfirst _].
  exact (Hfirst [("code", JNum 5006); ("message", JStr "Missing prompt")]
           [JObj [("code", JNum 7000); ("message", JStr "No route")]]
           "Missing prompt" eq_refl eq_refl ltac:(discriminate)).
Defined.

(** ** Earlier revisions *)

Section Revisions.

Context {RT : Runtime}.

Lemma early_upload_resolved (audioData : string)
    (fileName contentType : option string) (s : State)
    (r : AxiosResponse) (w : World) :
  let ct := with_default contentType "audio/mp3" in
  let name := chosen_name fileName "mp3" s in
  axios (r2_request audioData ct name) (world (state_named fileName s))
    = (Resolved r, w) ->
  FourTools.uploadAudioToR2 audioData fileName contentType s =
    (inr (if ((status r =? 200) || (status r =? 201))%Z then
            {| content :=
                 [Text (JStr ("Audio file successfully uploaded to R2 storage."
                              ++ LF ++ "File: " ++ name ++ LF
                              ++ "URL: " ++ (R2_URL ++ "/" ++ name)));
                  Resource
                    {| res_uri := R2_URL ++ "/" ++ name;
                       res_blob := Some (JStr audioData);
                       res_text := None;
                       res_mimeType := Some ct |}] |}
          else text_result ("Error uploading to R2: Upload failed: "
                            ++ string_of_Z (status r) ++ " - " ++ statusText r)),
     asked_in (state_named fileName s) (r2_request audioData ct name) w).
Proof.
  intros ct name Hax. subst ct name.
  unfold FourTools.uploadAudioToR2, try_catch, bind.
  rewrite finalFileName_run. rewrite (await_resolved _ _ _ _ Hax).
  destruct ((status r =? 200) || (status r =? 201))%Z; reflexivity.
Qed.

Lemma early_upload_rejected (audioData : string)
    (fileName contentType : option string) (s : State)
    (e : JsError) (w : World) :
  let ct := with_default contentType "audio/mp3" in
  let name := chosen_name fileName "mp3" s in
  axios (r2_request audioData ct name) (world (state_named fileName s))
    = (Rejected e, w) ->
  FourTools.uploadAudioToR2 audioData fileName contentType s =
    (inr (text_result ("Error uploading to R2: "
                       ++ js_String (bestEffortMessage e))),
     asked_in (state_named fileName s) (r2_request audioData ct name) w).
Proof.
  intros ct name Hax. subst ct name.
  unfold FourTools.uploadAudioToR2, try_catch, bind.
  rewrite finalFileName_run. rewrite (await_rejected _ _ _ _ Hax).
  reflexivity.
Qed.

Lemma early_upload_requests (audioData : string)
    (fileName contentType : option string) (s : State) :
  requests (snd (FourTools.uploadAudioToR2 audioData fileName contentType s))
  = (requests s
       ++ [r2_request audioData (with_default contentType "audio/mp3")
             (chosen_name fileName "mp3" s)])%list.
Proof.
  destruct (axios (r2_request audioData (with_default contentType "audio/mp3")
                     (chosen_name fileName "mp3" s))
                  (world (state_named fileName s))) as [[r|e] w] eqn:Hax.
  - rewrite (early_upload_resolved audioData fileName contentType s r w Hax).
    cbn [snd asked_in requests]. now rewrite state_named_requests.
  - rewrite (early_upload_rejected audioData fileName contentType s e w Hax).
    cbn [snd asked_in requests]. now rewrite state_named_requests.
Qed.

End Revisions.

(** X16. The upload of the revision with four tools does not look at the
    payload: without a declared type the request is labelled "audio/mp3" even
    for a payload that starts with the WAV signature, which the current upload
    labels "audio/wav"; and a generated name ends in ".mp3" whatever type was
    declared. *)
Theorem early_upload_does_not_detect {RT : Runtime} (audioData : string)
    (s : State) :
  (forall fileName : option string,
     requests (snd (FourTools.uploadAudioToR2 audioData fileName None s))
     = (requests s
          ++ [r2_request audioData "audio/mp3" (chosen_name fileName "mp3" s)])%list)
  /\
  (forall c : string,
     requests (snd (FourTools.uploadAudioToR2 audioData None (Some c) s))
     = (requests s
          ++ [r2_request audioData c
                ("audio-" ++ fst (uuid_v4 (world s)) ++ ".mp3")])%list)
  /\
  (startsWith audioData "UklGR" = true ->
   forall fileName : option string,
     requests (snd (uploadAudioToR2 audioData fileName None s))
     = (requests s
          ++ [r2_request audioData "audio/wav" (chosen_name fileName "wav" s)])%list).
Proof.
  split; [|split].
  - intros fileName. exact (early_upload_requests audioData fileName None s).
  - intros c. exact (early_upload_requests audioData None (Some c) s).
  - intros Hwav fileName.
    pose proof (upload_requests audioData fileName None s) as H.
    cbv zeta in H. unfold finalContentType in H. cbn [of_optional truthy negb] in H.
    rewrite Hwav in H. exact H.
Qed.

Lemma early_upload_does_not_detect_witness :
  map (fun r => assoc "Content-Type" (req_headers r))
      (requests (snd (FourTools.uploadAudioToR2 (RT := Toy.runtime Toy.created)
                        "UklGRg==" None None (Toy.start Toy.created))))
  = [Some "audio/mp3"]
  /\ map (fun r => assoc "Content-Type" (req_headers r))
         (requests (snd (uploadAudioToR2 (RT := Toy.runtime Toy.created)
                           "UklGRg==" None None (Toy.start Toy.created))))
     = [Some "audio/wav"].
Proof.
  destruct (early_upload_does_not_detect (RT := Toy.runtime Toy.created)
              "UklGRg==" (Toy.start Toy.created)) as [Hold [_ Hnew]].
  split.
  - rewrite (Hold None). reflexivity.
  - rewrite (Hnew eq_refl None). reflexivity.
Defined.

(** X17. When both a file name and a content type are given, non-empty, the
    upload of the revision with four tools and the current one make the same
    request, leave the same state and return the same resource; when no
    resource is returned, they return the same error text. *)
Theorem upload_revisions_agree {RT : Runtime} (fileData f c : string) (s : State) :
  f <> "" ->
  c <> "" ->
  let early := FourTools.uploadAudioToR2 fileData (Some f) (Some c) s in
  let current := uploadAudioToR2 fileData (Some f) (Some c) s in
  snd early = snd current
  /\ resources (returned early) = resources (returned current)
  /\ (resources (returned current) = [] -> fst early = fst current).
Proof.
  intros Hf Hc early current. subst early current.
  assert (Hct : finalContentType (Some c) fileData = c).
  { unfold finalContentType. cbn [of_optional]. now rewrite (truthy_nonempty c Hc). }
  assert (Hname : forall ext, chosen_name (Some f) ext s = f).
  { intros ext. unfold chosen_name. cbn [of_optional].
    now rewrite (truthy_nonempty f Hf). }
  destruct (axios (r2_request fileData c f) (world (state_named (Some f) s)))
    as [[r|e] w] eqn:Hax.
  - pose proof (early_upload_resolved fileData (Some f) (Some c) s r w) as He.
    pose proof (upload_resolved fileData (Some f) (Some c) s r w) as Hn.
    cbv zeta in He. cbn [with_default] in He.
    rewrite Hct in Hn. rewrite !Hname in *.
    rewrite (He Hax), (Hn Hax). unfold returned. cbn [fst snd].
    destruct ((status r =? 200) || (status r =? 201))%Z; cbn.
    + repeat split. discriminate.
    + repeat split.
  - pose proof (early_upload_rejected fileData (Some f) (Some c) s e w) as He.
    pose proof (upload_rejected fileData (Some f) (Some c) s e w) as Hn.
    cbv zeta in He. cbn [with_default] in He.
    rewrite Hct in Hn. rewrite !Hname in *.
    rewrite (He Hax), (Hn Hax). repeat split.
Qed.

Lemma upload_revisions_agree_witness :
  resources (returned (FourTools.uploadAudioToR2 (RT := Toy.runtime Toy.created)
                         "UklGRg==" (Some "clip.wav") (Some "audio/wav")
                         (Toy.start Toy.created)))
  = resources (returned (uploadAudioToR2 (RT := Toy.runtime Toy.created)
                           "UklGRg==" (Some "clip.wav") (Some "audio/wav")
                           (Toy.start Toy.created)))
  /\ fst (FourTools.uploadAudioToR2 (RT := Toy.runtime Toy.upstream_down)
            "UklGRg==" (Some "clip.wav") (Some "audio/wav")
            (Toy.start Toy.upstream_down))
     = fst (uploadAudioToR2 (RT := Toy.runtime Toy.upstream_down)
              "UklGRg==" (Some "clip.wav") (Some "audio/wav")
              (Toy.start Toy.upstream_down)).
Proof.
  split.
  - exact (proj1 (proj2 (upload_revisions_agree (RT := Toy.runtime Toy.created)
                           "UklGRg==" "clip.wav" "audio/wav" (Toy.start Toy.created)
                           ltac:(discriminate) ltac:(discriminate)))).
  - exact (proj2 (proj2 (upload_revisions_agree (RT := Toy.runtime Toy.upstream_down)
                           "UklGRg==" "clip.wav" "audio/wav"
                           (Toy.start Toy.upstream_down)
                           ltac:(discriminate) ltac:(discriminate)))
             eq_refl).
Defined.

(** X18. The speech handler of the revision with three tools and the current
    one differ in the shape of the resource only: on every input and every
    answer they make the same request, leave the same state, return the same
    texts and the same payload.  The earlier resource is named after the
    identifier announced in the text, with ".mp3" appended. *)
Theorem speech_revisions_agree {RT : Runtime} (text lang : option string)
    (s : State) :
  snd (ThreeTools.fetchAudioAndSave text lang s)
  = snd (fetchAudioAndSave text lang s)
  /\ exists (early : ThreeTools.EarlyResult) (current : ToolResult),
       fst (ThreeTools.fetchAudioAndSave text lang s) = inr early
       /\ fst (fetchAudioAndSave text lang s) = inr current
       /\ early_texts (ThreeTools.early_content early) = texts (content current)
       /\ early_data (ThreeTools.early_content early) = blobs (content current)
       /\ (forall (media_type : string) (d : JsValue) (name : string),
             In (ThreeTools.EarlyResource media_type d name)
                (ThreeTools.early_content early) ->
             media_type = "audio/mp3"
             /\ exists audioId : string,
                  name = audioId ++ ".mp3"
                  /\ In (ThreeTools.EarlyText
                           (JStr ("Generated audio ID: " ++ audioId)))
                        (ThreeTools.early_content early)).
Proof.
  unfold ThreeTools.fetchAudioAndSave, fetchAudioAndSave, try_catch, bind,
    await_axios.
  destruct (axios (melotts_request (with_default text "") (with_default lang "en"))
                  (world s)) as [[r|e] w].
  - destruct (status r =? 200)%Z.
    + cbv zeta.
      destruct (truthy (get_prop (get_prop (data r) "result") "audio")).
      * unfold call_uuid_v4. cbn [world requests].
        destruct (uuid_v4 w) as [audioId w']. cbn.
        split; [reflexivity|]. eexists. eexists.
        repeat (split; [reflexivity|]).
        intros media_type d name [[=]|[[= <- _ <-]|[]]].
        split; [reflexivity|]. exists audioId. split; [reflexivity | now left].
      * cbn. split; [reflexivity|]. eexists. eexists.
        repeat (split; [reflexivity|]).
        intros media_type d name [[=]|[]].
    + cbn. split; [reflexivity|]. eexists. eexists.
      repeat (split; [reflexivity|]).
      intros media_type d name [[=]|[]].
  - cbn. split; [reflexivity|]. eexists. eexists.
    repeat (split; [reflexivity|]).
    intros media_type d name [[=]|[]].
Qed.
